(** * GsmWebServer: the Arduino sensor API of [src/index.js]

    A shallow embedding of the Express service: the in-memory history
    [sensorData], the counters [apiStats] and the seven route handlers,
    together with the fragment of ECMAScript they rely on ([parseFloat],
    [ToString], [String.prototype.includes], [Array.prototype.slice], the
    two regular expressions of the raw-text branch).

    Conventions of the model
    - JavaScript strings are byte strings ([string]); every test the
      handlers make is on ASCII characters.
    - Number values are IEEE 754 binary64 values, [spec_float] of the
      standard library at precision 53 and maximal exponent 1024.
    - The two counters only ever count requests; they are modelled as [N]
      (binary64 is exact on the integers below 2^53).
    - The clock, the runtime version, the uptime and the memory snapshot are
      inputs of a handler run ([Host]); [console.log] output is not part of
      the model.
    - A [Request] is what a route handler receives: the body parsers of
      lines 11 to 13 have run, [body] is what they left in [req.body]
      ([undefined] or an empty object when none of them read the body). *)

From Stdlib Require Import List String Ascii Bool ZArith NArith Lia.
From Stdlib Require Import SpecFloat DecimalString.
Import ListNotations.

Local Open Scope string_scope.
Local Open Scope Z_scope.

(** ** Strings *)

Module Str.

(** The double-quote character. *)
Definition dq : string := String (ascii_of_nat 34) EmptyString.

(** [String.prototype.includes]: [sub] occurs somewhere in [s]. *)
Fixpoint includes (s sub : string) : bool :=
  if prefix sub s then true
  else match s with
       | EmptyString => false
       | String _ rest => includes rest sub
       end.

(** [s] without the prefix [p], when [s] starts with [p]. *)
Fixpoint strip_prefix (p s : string) : option string :=
  match p, s with
  | EmptyString, _ => Some s
  | String a p', String b s' =>
      if Ascii.eqb a b then strip_prefix p' s' else None
  | String _ _, EmptyString => None
  end.

(** The longest prefix of [s] whose characters satisfy [f], and the rest. *)
Fixpoint span (f : ascii -> bool) (s : string) : string * string :=
  match s with
  | EmptyString => (EmptyString, EmptyString)
  | String c rest =>
      if f c then let '(a, b) := span f rest in (String c a, b)
      else (EmptyString, s)
  end.

Definition is_empty (s : string) : bool :=
  match s with EmptyString => true | _ => false end.

Definition is_digit (c : ascii) : bool :=
  let n := N_of_ascii c in (48 <=? n)%N && (n <=? 57)%N.

(** The class [[\d.]] of the two regular expressions. *)
Definition is_digit_or_dot (c : ascii) : bool :=
  is_digit c || Ascii.eqb c "."%char.

(** [n] copies of the character ["0"]. *)
Definition zeros (n : nat) : string :=
  string_of_list_ascii (repeat "0"%char n).

Definition of_N (n : N) : string := NilZero.string_of_uint (N.to_uint n).

Definition of_nat (n : nat) : string := NilZero.string_of_uint (Nat.to_uint n).

(** [Array.prototype.join('')] on strings. *)
Definition join_empty (l : list string) : string :=
  fold_right append EmptyString l.

End Str.

(** ** Number values *)

Module Num.

Definition prec : Z := 53.
Definition emax : Z := 1024.

Definition JSNumber : Type := spec_float.

Definition NaN : JSNumber := S754_nan.
Definition zero : JSNumber := S754_zero false.
Definition neg_zero : JSNumber := S754_zero true.

(** The Number value of an integer. *)
Definition of_Z (z : Z) : JSNumber := binary_normalize prec emax z 0 false.

(** [ToBoolean] on a Number: false exactly for +0, -0 and NaN. *)
Definition truthy (x : JSNumber) : bool :=
  match x with
  | S754_zero _ | S754_nan => false
  | _ => true
  end.

Definition is_nan (x : JSNumber) : bool :=
  match x with S754_nan => true | _ => false end.

(** [Number::equal], the comparison [===] makes on two Numbers. *)
Definition equal (x y : JSNumber) : bool := SFeqb x y.

(** The Number value of [(-1)^neg * m * 10^e], rounded to nearest, ties to
    even (the rounding of the Number type). *)
Definition of_decimal (neg : bool) (m : N) (e : Z) : JSNumber :=
  match m with
  | N0 => S754_zero neg
  | Npos p =>
      if 0 <=? e
      then binary_normalize prec emax (cond_Zopp neg (Zpos p * 10 ^ e)) 0 neg
      else SFdiv prec emax (S754_finite neg p 0)
                           (S754_finite false (Z.to_pos (10 ^ (- e))) 0)
  end.

(** *** Reading a decimal literal *)

(** The value of a string of decimal digits. *)
Definition digit_value (c : ascii) : N := (N_of_ascii c - 48)%N.

Fixpoint digits_value_from (acc : N) (s : string) : N :=
  match s with
  | EmptyString => acc
  | String c rest => digits_value_from (10 * acc + digit_value c)%N rest
  end.

Definition digits_value (s : string) : N := digits_value_from 0%N s.

(** [ExponentPart] at the head of [s]: the exponent it denotes, and [0]
    when [s] does not start with a complete exponent part. *)
Definition exponent_part (s : string) : Z :=
  match s with
  | String c rest =>
      if Ascii.eqb c "e"%char || Ascii.eqb c "E"%char then
        let '(neg, rest') :=
          match rest with
          | String "-"%char r => (true, r)
          | String "+"%char r => (false, r)
          | _ => (false, rest)
          end in
        let '(ds, _) := Str.span Str.is_digit rest' in
        if Str.is_empty ds then 0
        else cond_Zopp neg (Z.of_N (digits_value ds))
      else 0
  | EmptyString => 0
  end.

(** The longest prefix of [s] that is a [StrUnsignedDecimalLiteral], as a
    Number of sign [neg]; [None] when no prefix is one. *)
Definition unsigned_literal (neg : bool) (s : string) : option JSNumber :=
  if prefix "Infinity" s then Some (S754_infinity neg)
  else
    let '(ip, r1) := Str.span Str.is_digit s in
    let '(fp, r2) :=
      match r1 with
      | String "."%char r => Str.span Str.is_digit r
      | _ => (EmptyString, r1)
      end in
    if Str.is_empty ip && Str.is_empty fp then None
    else
      Some (of_decimal neg (digits_value (ip ++ fp))
              (exponent_part r2 - Z.of_nat (String.length fp))).

(** White space and line terminators [TrimString] removes, on the UTF-8
    encoding of the string. *)
Definition ws1 (c : ascii) : bool :=
  let n := N_of_ascii c in
  ((9 <=? n) && (n <=? 13) || (n =? 32))%N.

Fixpoint trim_start_fuel (fuel : nat) (s : string) : string :=
  match fuel with
  | O => s
  | S fuel' =>
      match s with
      | String c rest =>
          if ws1 c then trim_start_fuel fuel' rest
          else
            match s with
            | String "194" (String "160" r) => trim_start_fuel fuel' r
            | String "225" (String "154" (String "128" r)) =>
                trim_start_fuel fuel' r
            | String "226" (String "128" (String c3 r)) =>
                let n := N_of_ascii c3 in
                if ((128 <=? n) && (n <=? 138) || (n =? 168) || (n =? 169)
                    || (n =? 175))%N
                then trim_start_fuel fuel' r else s
            | String "226" (String "129" (String "159" r)) =>
                trim_start_fuel fuel' r
            | String "227" (String "128" (String "128" r)) =>
                trim_start_fuel fuel' r
            | String "239" (String "187" (String "191" r)) =>
                trim_start_fuel fuel' r
            | _ => s
            end
      | EmptyString => s
      end
  end.

(** Every step removes at least one byte, so the length is fuel enough. *)
Definition trim_start (s : string) : string :=
  trim_start_fuel (String.length s) s.

(** [parseFloat] on a string: trim, then read the longest prefix that is
    a [StrDecimalLiteral]; NaN when there is none. *)
Definition parseFloat_string (s : string) : JSNumber :=
  let t := trim_start s in
  let r :=
    match t with
    | String "-"%char rest => unsigned_literal true rest
    | String "+"%char rest => unsigned_literal false rest
    | _ => unsigned_literal false t
    end in
  match r with
  | Some x => x
  | None => NaN
  end.

(** *** Number::toString, radix 10 *)

Definition nb_digits10 (p : positive) : Z :=
  Z.of_nat (Decimal.nb_digits (Pos.to_uint p)).

(** The integer [n] with [10^(n-1) <= num/den < 10^n], for a positive
    fraction. *)
Definition decimal_exponent (num den : Z) : Z :=
  if den <=? num then nb_digits10 (Z.to_pos (num / den))
  else 1 - nb_digits10 (Z.to_pos ((den + num - 1) / num - 1)).

(** The [k]-digit candidates around [num/den]: the two integers [s] next
    to [num/den / 10^(n-k)]; the one whose decimal reads back as [x] is
    kept, the closer one when both do, the even one on a tie. *)
Definition candidate (x : JSNumber) (num den n k : Z) : option N :=
  let p := n - k in
  let a := num * 10 ^ Z.max (- p) 0 in
  let b := den * 10 ^ Z.max p 0 in
  let lo := Z.to_N (a / b) in
  let hi := N.succ lo in
  let back (s : N) := SFeqb (of_decimal false s p) x in
  match back lo, back hi with
  | true, false => Some lo
  | false, true => Some hi
  | true, true =>
      match 2 * a ?= (2 * Z.of_N lo + 1) * b with
      | Lt => Some lo
      | Gt => Some hi
      | Eq => Some (if N.even lo then lo else hi)
      end
  | false, false => None
  end.

(** The shortest digit string: [k] runs from 1; 17 digits always read
    back, the last line is never reached on a binary64 value. *)
Fixpoint shortest (fuel : nat) (x : JSNumber) (num den n k : Z) : N * Z :=
  match candidate x num den n k with
  | Some s => if (s =? 10 ^ Z.to_N k)%N then (1%N, n + 1) else (s, n)
  | None =>
      match fuel with
      | O => (Z.to_N (num * 10 ^ Z.max (k - n) 0 / (den * 10 ^ Z.max (n - k) 0)), n)
      | S fuel' => shortest fuel' x num den n (k + 1)
      end
  end.

(** The text of the digits [s] with decimal exponent [n] (steps 7 to 10
    of Number::toString). *)
Definition format_digits (s : N) (n : Z) : string :=
  let ds := Str.of_N s in
  let k := Z.of_nat (String.length ds) in
  if (k <=? n) && (n <=? 21) then ds ++ Str.zeros (Z.to_nat (n - k))
  else if (0 <? n) && (n <=? 21) then
    substring 0 (Z.to_nat n) ds ++ "." ++
    substring (Z.to_nat n) (Z.to_nat (k - n)) ds
  else if (-6 <? n) && (n <=? 0) then
    "0." ++ Str.zeros (Z.to_nat (- n)) ++ ds
  else
    let e := n - 1 in
    let sign := if e <? 0 then "-" else "+" in
    let mant :=
      if k =? 1 then ds
      else substring 0 1 ds ++ "." ++ substring 1 (Z.to_nat (k - 1)) ds in
    mant ++ "e" ++ sign ++ Str.of_N (Z.abs_N e).

Definition toString_finite (m : positive) (e : Z) : string :=
  let num := Zpos m * 2 ^ Z.max e 0 in
  let den := 2 ^ Z.max (- e) 0 in
  let n := decimal_exponent num den in
  let '(s, n') := shortest 16 (S754_finite false m e) num den n 1 in
  format_digits s n'.

Definition toString (x : JSNumber) : string :=
  match x with
  | S754_nan => "NaN"
  | S754_zero _ => "0"
  | S754_infinity false => "Infinity"
  | S754_infinity true => "-Infinity"
  | S754_finite false m e => toString_finite m e
  | S754_finite true m e => "-" ++ toString_finite m e
  end.

End Num.

(** ** Values, exceptions and the conversions of the language *)

(** The only exception the handlers can meet is a [TypeError]; [message]
    is what [error.message] reads. *)
Inductive JSError : Type :=
| TypeError (message : string).

Definition error_message (e : JSError) : string :=
  match e with TypeError m => m end.

(** The outcome of an expression that may throw. *)
Inductive Result (A : Type) : Type :=
| Ok (a : A)
| Throw (e : JSError).

Arguments Ok {A} a.
Arguments Throw {A} e.

Definition rbind {A B : Type} (r : Result A) (f : A -> Result B) : Result B :=
  match r with
  | Ok a => f a
  | Throw e => Throw e
  end.

(** What a parsed body, a body field or a query parameter can be: the
    values [JSON.parse], the urlencoded parser and the text parser build,
    and [undefined] for what is absent. *)
#[warnings="-register-all"]
Inductive JSValue : Type :=
| JUndefined
| JNull
| JBool (b : bool)
| JNum (x : Num.JSNumber)
| JStr (s : string)
| JArr (items : list JSValue)
| JObj (props : list (string * JSValue)).

Module Value.

(** Own property [key] of a parsed object. *)
Fixpoint own (key : string) (props : list (string * JSValue)) : option JSValue :=
  match props with
  | [] => None
  | (k, v) :: rest => if String.eqb k key then Some v else own key rest
  end.

(** [v.key], for a key no built-in prototype defines (here [temp] and
    [hum]): a TypeError on [undefined] and [null], the own property on an
    object, [undefined] on everything else. *)
Definition get (v : JSValue) (key : string) : Result JSValue :=
  match v with
  | JUndefined =>
      Throw (TypeError ("Cannot read properties of undefined (reading '"
                          ++ key ++ "')"))
  | JNull =>
      Throw (TypeError ("Cannot read properties of null (reading '"
                          ++ key ++ "')"))
  | JObj props =>
      Ok (match own key props with Some x => x | None => JUndefined end)
  | _ => Ok JUndefined
  end.

(** [ToBoolean]. *)
Definition truthy (v : JSValue) : bool :=
  match v with
  | JUndefined | JNull => false
  | JBool b => b
  | JNum x => Num.truthy x
  | JStr s => negb (Str.is_empty s)
  | JArr _ | JObj _ => true
  end.

(** [a || b]. *)
Definition or (a b : JSValue) : JSValue := if truthy a then a else b.

(** [ToString].  An array joins its elements with a comma, [undefined]
    and [null] elements giving the empty string.  A parsed object holds no
    function: with no own [toString] it inherits the one of
    [Object.prototype]; with an own [toString], which is not callable,
    [OrdinaryToPrimitive] falls to [valueOf], finds no primitive and
    throws. *)
Fixpoint toString (v : JSValue) : Result string :=
  match v with
  | JUndefined => Ok "undefined"
  | JNull => Ok "null"
  | JBool true => Ok "true"
  | JBool false => Ok "false"
  | JNum x => Ok (Num.toString x)
  | JStr s => Ok s
  | JArr items =>
      (fix join (first : bool) (l : list JSValue) : Result string :=
         match l with
         | [] => Ok EmptyString
         | x :: rest =>
             rbind (match x with
                    | JUndefined | JNull => Ok EmptyString
                    | _ => toString x
                    end)
               (fun sx =>
                  rbind (join false rest)
                    (fun sr => Ok ((if first then sx else "," ++ sx) ++ sr)))
         end) true items
  | JObj props =>
      match own "toString" props with
      | Some _ => Throw (TypeError "Cannot convert object to primitive value")
      | None => Ok "[object Object]"
      end
  end.

(** The global [parseFloat]: [ToString] of the argument, then the
    reading of the decimal literal. *)
Definition parseFloat (v : JSValue) : Result Num.JSNumber :=
  rbind (toString v) (fun s => Ok (Num.parseFloat_string s)).

End Value.

(** [x || 0] on a Number. *)
Definition number_or_zero (x : Num.JSNumber) : Num.JSNumber :=
  if Num.truthy x then x else Num.zero.

(** ** The two regular expressions of the raw-text branch *)

(** [s.match(/key([\d.]+)/)]: the first place of [s] where [key] is
    followed by at least one digit or dot, and the longest run of digits and
    dots there (the capture group 1); [None] for a [null] match. *)
Fixpoint match_capture (key : string) (s : string) : option string :=
  let here :=
    match Str.strip_prefix key s with
    | Some after =>
        let '(cap, _) := Str.span Str.is_digit_or_dot after in
        if Str.is_empty cap then None else Some cap
    | None => None
    end in
  match here with
  | Some cap => Some cap
  | None =>
      match s with
      | EmptyString => None
      | String _ rest => match_capture key rest
      end
  end.

(** ** [Array.prototype.slice] *)

(** [l.slice(start, end)] with the relative indices of the language:
    a negative index counts from the end, and both are clamped. *)
Definition js_slice {A : Type} (start stop : Z) (l : list A) : list A :=
  let len := Z.of_nat (List.length l) in
  let k := if start <? 0 then Z.max (len + start) 0 else Z.min start len in
  let final := if stop <? 0 then Z.max (len + stop) 0 else Z.min stop len in
  firstn (Z.to_nat (final - k)) (skipn (Z.to_nat k) l).

(** ** The state of the service *)

(** Dates are kept as the instant they denote, in milliseconds since the
    epoch: [Iso t] stands for the text [new Date(t).toISOString()], which
    [new Date(text)] reads back as [t], and [Locale t] for the text
    [new Date(t).toLocaleString()]. *)
Inductive IsoString : Type := Iso (t : Z).
Inductive LocaleString : Type := Locale (t : Z).

(** An element of [sensorData]: the [dataEntry] object of POST /api/data,
    or the [entry] object of GET /api/simple. *)
Inductive Entry : Type :=
| Reading (id : Z) (timestamp : IsoString)
          (temperature humidity : Num.JSNumber)
          (receivedAt : LocaleString) (client : string)
| SimpleEntry (timestamp : IsoString) (temperature humidity : JSValue)
              (method : string).

Definition entry_timestamp (e : Entry) : IsoString :=
  match e with
  | Reading _ ts _ _ _ _ => ts
  | SimpleEntry ts _ _ _ => ts
  end.

Definition entry_temperature (e : Entry) : JSValue :=
  match e with
  | Reading _ _ t _ _ _ => JNum t
  | SimpleEntry _ t _ _ => t
  end.

Definition entry_humidity (e : Entry) : JSValue :=
  match e with
  | Reading _ _ _ h _ _ => JNum h
  | SimpleEntry _ _ h _ => h
  end.

Record ApiStats : Type := {
  totalRequests : N;
  successfulPosts : N;
  lastRequest : option IsoString
}.

Record State : Type := {
  sensorData : list Entry;
  apiStats : ApiStats
}.

(** The module-level initialisation, lines 16 to 21. *)
Definition initial : State :=
  {| sensorData := [];
     apiStats := {| totalRequests := 0; successfulPosts := 0;
                    lastRequest := None |} |}.

(** ** Requests, the host and responses *)

Record Request : Type := {
  headers : list (string * string);
  body : JSValue;
  query : list (string * JSValue)
}.

(** What a handler run reads from the process: [clock k] is the k-th
    reading of the clock during the run, in the order of the source. *)
Record Host : Type := {
  clock : nat -> Z;
  version : string;
  uptime : Num.JSNumber;
  memoryUsage : list (string * Z)
}.

Inductive Response : Type :=
| PostOk (message : string) (data : Entry) (count : nat) (server : string)
| PostError (error help : string)
| DataListing (count : nat) (data : list Entry) (stats : ApiStats)
| PlainText (text : string)
| HealthReport (status server runtime : string) (up : Num.JSNumber)
               (memory : list (string * Z)) (requests : ApiStats)
| SimpleOk (data : Entry)
| Html (page : string)
| RootInfo (message : string) (endpoints : list (string * string))
           (note : string)
| InternalError (e : JSError).

(** The HTTP status of a response: [res.status(200)], [res.status(400)],
    the default 200, and the 500 Express answers to an uncaught throw. *)
Definition status_code (r : Response) : Z :=
  match r with
  | PostError _ _ => 400
  | InternalError _ => 500
  | _ => 200
  end.

(** The [success] flag of the POST /api/data responses. *)
Definition is_success (r : Response) : bool :=
  match r with
  | PostOk _ _ _ _ => true
  | _ => false
  end.

Fixpoint header (name : string) (hs : list (string * string)) : option string :=
  match hs with
  | [] => None
  | (k, v) :: rest => if String.eqb k name then Some v else header name rest
  end.

(** [req.headers[name] || dflt]: the default also replaces an empty
    header. *)
Definition header_or (name dflt : string) (req : Request) : string :=
  match header name (headers req) with
  | Some v => if Str.is_empty v then dflt else v
  | None => dflt
  end.

(** [req.query[name]], [undefined] when absent. *)
Definition query_param (name : string) (req : Request) : JSValue :=
  match Value.own name (query req) with
  | Some v => v
  | None => JUndefined
  end.

(** ** Handlers: state passing with exceptions

    A handler body runs on the state and returns the state it leaves,
    also when it throws: what was mutated before a throw stays mutated. *)

Definition Handler (A : Type) : Type := State -> State * Result A.

Definition ret {A : Type} (a : A) : Handler A := fun st => (st, Ok a).

Definition bind {A B : Type} (m : Handler A) (f : A -> Handler B) : Handler B :=
  fun st =>
    match m st with
    | (st', Ok a) => f a st'
    | (st', Throw e) => (st', Throw e)
    end.

Definition lift {A : Type} (r : Result A) : Handler A := fun st => (st, r).

Definition get_state : Handler State := fun st => (st, Ok st).

Definition modify (f : State -> State) : Handler unit := fun st => (f st, Ok tt).

(** [try { m } catch (error) { h error }]. *)
Definition try_catch {A : Type} (m : Handler A) (h : JSError -> Handler A)
  : Handler A :=
  fun st =>
    match m st with
    | (st', Ok a) => (st', Ok a)
    | (st', Throw e) => h e st'
    end.

Declare Scope handler_scope.
Delimit Scope handler_scope with handler.

Notation "x <- m ;; k" := (bind m (fun x => k))
  (at level 61, m at next level, right associativity) : handler_scope.
Notation "m ;; k" := (bind m (fun _ => k))
  (at level 61, right associativity) : handler_scope.
Notation "x <-! r ;; k" := (rbind r (fun x => k))
  (at level 61, r at next level, right associativity) : handler_scope.

Local Open Scope handler_scope.

(** *** State updates of the handlers *)

Definition set_sensorData (l : list Entry) (st : State) : State :=
  {| sensorData := l; apiStats := apiStats st |}.

(** [sensorData.unshift(e)]. *)
Definition unshift (e : Entry) (st : State) : State :=
  set_sensorData (e :: sensorData st) st.

(** Lines 27 and 28. *)
Definition count_request (now : Z) (st : State) : State :=
  {| sensorData := sensorData st;
     apiStats := {| totalRequests := N.succ (totalRequests (apiStats st));
                    successfulPosts := successfulPosts (apiStats st);
                    lastRequest := Some (Iso now) |} |}.

(** Line 74. *)
Definition count_success (st : State) : State :=
  {| sensorData := sensorData st;
     apiStats := {| totalRequests := totalRequests (apiStats st);
                    successfulPosts := N.succ (successfulPosts (apiStats st));
                    lastRequest := lastRequest (apiStats st) |} |}.

(** *** POST /api/data *)

(** Lines 38 to 56: the two numbers read from the request. *)
Definition read_fields (req : Request) : Result (Num.JSNumber * Num.JSNumber) :=
  let contentType := header_or "content-type" EmptyString req in
  if Str.includes contentType "application/x-www-form-urlencoded" then
    t <-! Value.get (body req) "temp" ;;
    temperature <-! Value.parseFloat t ;;
    h <-! Value.get (body req) "hum" ;;
    humidity <-! Value.parseFloat h ;;
    Ok (number_or_zero temperature, number_or_zero humidity)
  else if Str.includes contentType "application/json" then
    t <-! Value.get (body req) "temp" ;;
    temperature <-! Value.parseFloat t ;;
    h <-! Value.get (body req) "hum" ;;
    humidity <-! Value.parseFloat h ;;
    Ok (number_or_zero temperature, number_or_zero humidity)
  else
    bodyString <-! Value.toString (body req) ;;
    let tempMatch := match_capture "temp=" bodyString in
    let humMatch := match_capture "hum=" bodyString in
    Ok (match tempMatch with
        | Some g => Num.parseFloat_string g
        | None => Num.zero
        end,
        match humMatch with
        | Some g => Num.parseFloat_string g
        | None => Num.zero
        end).

Definition help_text : string := "Send data as: temp=25.5&hum=60.0".

(** Lines 34 to 94: the [try] block and its [catch]. *)
Definition ingest (host : Host) (req : Request) : Handler Response :=
  try_catch
    (fields <- lift (read_fields req) ;;
     let dataEntry :=
       Reading (clock host 1) (Iso (clock host 2)) (fst fields) (snd fields)
               (Locale (clock host 3)) (header_or "user-agent" "Unknown" req) in
     modify (unshift dataEntry) ;;
     st <- get_state ;;
     (if (100 <? List.length (sensorData st))%nat
      then modify (set_sensorData (js_slice 0 100 (sensorData st)))
      else ret tt) ;;
     modify count_success ;;
     st' <- get_state ;;
     ret (PostOk "Data received successfully" dataEntry
            (List.length (sensorData st')) "Node.js API on Render"))
    (fun error => ret (PostError (error_message error) help_text)).

(** Lines 26 to 95. *)
Definition post_data (host : Host) (req : Request) : Handler Response :=
  modify (count_request (clock host 0)) ;;
  ingest host req.

(** *** GET /api/data, /api/test, /api/health, /api/simple and / *)

Definition get_data : Handler Response :=
  st <- get_state ;;
  ret (DataListing (List.length (sensorData st)) (sensorData st) (apiStats st)).

Definition get_test : Handler Response :=
  ret (PlainText "OK - Node.js API is working!").

Definition get_health (host : Host) : Handler Response :=
  st <- get_state ;;
  ret (HealthReport "online" "Arduino Sensor API" ("Node.js " ++ version host)
         (uptime host) (memoryUsage host) (apiStats st)).

Definition get_simple (host : Host) (req : Request) : Handler Response :=
  let temp := Value.or (query_param "temp" req) (JStr "0") in
  let hum := Value.or (query_param "hum" req) (JStr "0") in
  let entry := SimpleEntry (Iso (clock host 0)) temp hum "GET" in
  modify (unshift entry) ;;
  ret (SimpleOk entry).

Definition get_root : Handler Response :=
  ret (RootInfo "Arduino Sensor API"
         [("postData", "POST /api/data");
          ("getData", "GET /api/data");
          ("health", "GET /api/health");
          ("test", "GET /api/test");
          ("simple", "GET /api/simple?temp=25&hum=60");
          ("dashboard", "GET /dashboard")]
         "Send sensor data as: temp=25.5&hum=60.0").

(** What the client receives from a handler run: a throw that leaves the
    handler is answered by Express with status 500. *)
Definition answer (out : State * Result Response) : State * Response :=
  match out with
  | (st', Ok resp) => (st', resp)
  | (st', Throw e) => (st', InternalError e)
  end.

(** *** GET /dashboard *)

Module Page.

(** The fixed text of the template literal of lines 147 to 179, cut at
    its substitutions. *)
Definition head : string :=
  "
  <!DOCTYPE html>
  <html>
  <head>
    <title>Arduino Sensor Dashboard</title>
    <style>
      body { font-family: Arial, sans-serif; margin: 20px; }
      .data-card { 
        background: #f5f5f5; 
        padding: 15px; 
        margin: 10px 0; 
        border-radius: 5px;
      }
      .success { color: green; }
      .error { color: red; }
    </style>
  </head>
  <body>
    <h1>📱 Arduino Sensor Dashboard</h1>
    <p>Total readings: ".

Definition middle : string :=
  "</p>
    <div id=" ++ Str.dq ++ "data-container" ++ Str.dq ++ ">
      ".

Definition tail : string :=
  "
    </div>
    <p><a href=" ++ Str.dq ++ "/api/data" ++ Str.dq ++ ">View all data as JSON</a></p>
    <p><a href=" ++ Str.dq ++ "/api/health" ++ Str.dq ++ ">Server health</a></p>
  </body>
  </html>
  ".

Definition card_open : string :=
  "
        <div class=" ++ Str.dq ++ "data-card" ++ Str.dq ++ ">
          <strong>".

Definition card_temp : string :=
  "</strong><br>
          🌡️ Temp: ".

Definition card_hum : string :=
  "°C | 💧 Hum: ".

Definition card_close : string :=
  "%
        </div>
      ".

End Page.

Section Routes.

(** The text [new Date(t).toLocaleString()] depends on the locale and
    the time zone of the host. *)
Variable toLocaleString : Z -> string.

(** The template of lines 169 to 172 on one item. *)
Definition card (item : Entry) : Result string :=
  let '(Iso t) := entry_timestamp item in
  temperature <-! Value.toString (entry_temperature item) ;;
  humidity <-! Value.toString (entry_humidity item) ;;
  Ok (Page.card_open ++ toLocaleString t ++ Page.card_temp ++ temperature
        ++ Page.card_hum ++ humidity ++ Page.card_close).

(** [items.map(f)] for an [f] that may throw: in order, up to the first
    throw. *)
Fixpoint map_result {A B : Type} (f : A -> Result B) (l : list A)
  : Result (list B) :=
  match l with
  | [] => Ok []
  | x :: rest =>
      y <-! f x ;;
      ys <-! map_result f rest ;;
      Ok (y :: ys)
  end.

(** The cards of the page, line 168. *)
Definition cards (history : list Entry) : Result (list string) :=
  map_result card (js_slice 0 10 history).

Definition render (history : list Entry) : Result string :=
  cs <-! cards history ;;
  Ok (Page.head ++ Str.of_nat (List.length history) ++ Page.middle
        ++ Str.join_empty cs ++ Page.tail).

Definition get_dashboard : Handler Response :=
  st <- get_state ;;
  html <- lift (render (sensorData st)) ;;
  ret (Html html).

(** *** The routes of the application *)

Inductive Route : Type :=
| POST_api_data
| GET_api_data
| GET_api_test
| GET_api_health
| GET_api_simple
| GET_dashboard
| GET_root.

Definition route_handler (r : Route) (host : Host) (req : Request)
  : Handler Response :=
  match r with
  | POST_api_data => post_data host req
  | GET_api_data => get_data
  | GET_api_test => get_test
  | GET_api_health => get_health host
  | GET_api_simple => get_simple host req
  | GET_dashboard => get_dashboard
  | GET_root => get_root
  end.

(** One request served. *)
Definition serve (r : Route) (host : Host) (req : Request) (st : State)
  : State * Response :=
  answer (route_handler r host req st).

(** Requests served one after the other. *)
Definition serve_all (rs : list (Route * Host * Request)) (st : State) : State :=
  fold_left
    (fun s r => fst (serve (fst (fst r)) (snd (fst r)) (snd r) s))
    rs st.

(** The states the service can be in. *)
Inductive reachable : State -> Prop :=
| reachable_initial : reachable initial
| reachable_serve r host req st :
    reachable st -> reachable (fst (serve r host req st)).

(** The routes that change the history. *)
Definition mutating (r : Route) : bool :=
  match r with
  | POST_api_data | GET_api_simple => true
  | _ => false
  end.

End Routes.

(** A sequence of POST /api/data requests, served in order: the final
    state and the responses. *)
Fixpoint post_all (rs : list (Host * Request)) (st : State)
  : State * list Response :=
  match rs with
  | [] => (st, [])
  | (host, req) :: rest =>
      let '(st1, resp) := answer (post_data host req st) in
      let '(st2, resps) := post_all rest st1 in
      (st2, resp :: resps)
  end.


(** ** Derived notions used in the statements *)

(** Lines 69 to 72 on a list: the new entry goes first and the list is cut
    to its first 100 elements. *)
Definition capped (e : Entry) (l : list Entry) : list Entry :=
  firstn 100 (e :: l).

(** The entry [ingest] builds from the two numbers it read. *)
Definition data_entry (host : Host) (req : Request)
  (fields : Num.JSNumber * Num.JSNumber) : Entry :=
  Reading (clock host 1) (Iso (clock host 2)) (fst fields) (snd fields)
          (Locale (clock host 3)) (header_or "user-agent" "Unknown" req).

(** The two outcomes of POST /api/data. *)
Inductive post_outcome (host : Host) (req : Request) (st : State)
  : State * Response -> Prop :=
| post_stored fields :
    read_fields req = Ok fields ->
    post_outcome host req st
      (count_success
         (set_sensorData (capped (data_entry host req fields) (sensorData st))
            (count_request (clock host 0) st)),
       PostOk "Data received successfully" (data_entry host req fields)
         (List.length (capped (data_entry host req fields) (sensorData st)))
         "Node.js API on Render")
| post_rejected e :
    read_fields req = Throw e ->
    post_outcome host req st
      (count_request (clock host 0) st, PostError (error_message e) help_text).

(** The entries the successful responses of a run report, in the order of
    the requests. *)
Fixpoint inserted (resps : list Response) : list Entry :=
  match resps with
  | [] => []
  | PostOk _ e _ _ :: rest => e :: inserted rest
  | _ :: rest => inserted rest
  end.

(** A request whose content type selects the form or the JSON branch of
    lines 40 to 47. *)
Definition typed (req : Request) : bool :=
  let contentType := header_or "content-type" EmptyString req in
  Str.includes contentType "application/x-www-form-urlencoded"
  || Str.includes contentType "application/json".

(** ** Sample requests *)

Module Sample.

Definition host : Host :=
  {| clock := fun k => 1700000000000 + Z.of_nat k;
     version := "v18.17.0";
     uptime := Num.of_Z 12;
     memoryUsage := [("rss", 50000000); ("heapUsed", 9000000)] |}.

Definition locale (t : Z) : string := "t" ++ Str.of_N (Z.to_N t).

(** A body of type application/x-www-form-urlencoded, parsed. *)
Definition form_request (temp hum : string) : Request :=
  {| headers := [("content-type", "application/x-www-form-urlencoded");
                 ("user-agent", "ArduinoGSM")];
     body := JObj [("temp", JStr temp); ("hum", JStr hum)];
     query := [] |}.

(** A body of type application/json, parsed. *)
Definition json_request (b : JSValue) : Request :=
  {| headers := [("content-type", "application/json")];
     body := b;
     query := [] |}.

(** A body of type text/plain. *)
Definition text_request (b : string) : Request :=
  {| headers := [("content-type", "text/plain")];
     body := JStr b;
     query := [] |}.

(** A GET request with the given query parameters. *)
Definition query_request (q : list (string * JSValue)) : Request :=
  {| headers := []; body := JUndefined; query := q |}.

(** [n] form posts with temperatures 1, 2, ..., [n]. *)
Definition readings (n : nat) : list (Host * Request) :=
  map (fun k => (host, form_request (Str.of_nat k) "60.0")) (seq 1 n).

(** The JSON body [{"temp": {"toString": 1}, "hum": 60}], parsed. *)
Definition unconvertible : JSValue :=
  JObj [("temp", JObj [("toString", JNum (Num.of_Z 1))]);
        ("hum", JNum (Num.of_Z 60))].

End Sample.

(** ** Notions used in the further properties *)

(** Every character of [s] satisfies [f]. *)
Fixpoint all_chars (f : ascii -> bool) (s : string) : bool :=
  match s with
  | EmptyString => true
  | String c rest => f c && all_chars f rest
  end.

(** The first character of [s], if any, satisfies [f]. *)
Definition starts_with_char (f : ascii -> bool) (s : string) : bool :=
  match s with
  | EmptyString => false
  | String c _ => f c
  end.

(** The sign bit of a Number; NaN has none. *)
Definition sign_negative (x : Num.JSNumber) : bool :=
  match x with
  | S754_zero s | S754_infinity s | S754_finite s _ _ => s
  | S754_nan => false
  end.

(** The values that are not objects. *)
Definition primitive (v : JSValue) : bool :=
  match v with
  | JArr _ | JObj _ => false
  | _ => true
  end.

(** An entry stored by POST /api/data. *)
Definition is_reading (e : Entry) : bool :=
  match e with
  | Reading _ _ _ _ _ _ => true
  | SimpleEntry _ _ _ _ => false
  end.

(** What both handlers guarantee of the entry they build: a reading names
    a client, an entry of GET /api/simple has the method GET and two values
    that are not falsy. *)
Definition entry_filled (e : Entry) : bool :=
  match e with
  | Reading _ _ _ _ _ client => negb (Str.is_empty client)
  | SimpleEntry _ temp hum method =>
      Value.truthy temp && Value.truthy hum && String.eqb method "GET"
  end.

(** The counters as they stand together: no more successes than requests,
    and a last request exactly when one was counted. *)
Definition counters_consistent (stats : ApiStats) : Prop :=
  (successfulPosts stats <= totalRequests stats)%N /\
  (lastRequest stats = None <-> totalRequests stats = 0%N).

(** The attempt of the pattern at the very start of [s]. *)
Definition capture_here (key s : string) : option string :=
  match Str.strip_prefix key s with
  | Some after =>
      let '(cap, _) := Str.span Str.is_digit_or_dot after in
      if Str.is_empty cap then None else Some cap
  | None => None
  end.

(** The text of a decimal with integer digits [ip] and fraction digits
    [fp]: [ip] alone when there is no fraction, [ip.fp] otherwise. *)
Definition decimal_text (ip fp : string) : string :=
  match fp with
  | EmptyString => ip
  | _ => ip ++ "." ++ fp
  end.

(** The values a template literal shows without calling into an object:
    a Number as Number::toString prints it, a string as it is. *)
Definition plain_value (v : JSValue) : bool :=
  match v with
  | JNum _ | JStr _ => true
  | _ => false
  end.

Definition plain_text (v : JSValue) : string :=
  match v with
  | JNum x => Num.toString x
  | JStr s => s
  | _ => EmptyString
  end.

(** An entry whose temperature and humidity are numbers or strings: every
    reading, and an entry of GET /api/simple whose parameters were strings. *)
Definition plain_entry (e : Entry) : bool :=
  plain_value (entry_temperature e) && plain_value (entry_humidity e).

(** The card of lines 169 to 172 written out for such an entry. *)
Definition card_text (toLocaleString : Z -> string) (e : Entry) : string :=
  match entry_timestamp e with
  | Iso t =>
      Page.card_open ++ toLocaleString t ++ Page.card_temp
        ++ plain_text (entry_temperature e) ++ Page.card_hum
        ++ plain_text (entry_humidity e) ++ Page.card_close
  end.

(** The route of a request of a run. *)
Definition route_of (r : Route * Host * Request) : Route := fst (fst r).

(** * Properties *)

(** ** The conversions on sample values *)

Example parseFloat_decimal :
  Num.parseFloat_string "25.5" = S754_finite false 7177611906121728 (-48).
Proof. vm_compute. reflexivity. Qed.

Example parseFloat_prefix :
  Num.parseFloat_string "  12abc" = Num.of_Z 12 /\
  Num.parseFloat_string "1.2.3" = Num.parseFloat_string "1.2" /\
  Num.parseFloat_string "-0" = Num.neg_zero /\
  Num.parseFloat_string "1e400" = S754_infinity false.
Proof. vm_compute. repeat split; reflexivity. Qed.

Example parseFloat_not_a_number :
  Num.parseFloat_string "." = Num.NaN /\
  Num.parseFloat_string "..5" = Num.NaN /\
  Num.parseFloat_string "abc" = Num.NaN /\
  Num.parseFloat_string "undefined" = Num.NaN /\
  Num.parseFloat_string EmptyString = Num.NaN.
Proof. vm_compute. repeat split; reflexivity. Qed.

Example toString_numbers :
  map (fun s => Num.toString (Num.parseFloat_string s))
    ["25.5"; "60.0"; "0.1"; "1e21"; "0.000001"; "1e-7"; "-12.75"; "5e-324"]
  = ["25.5"; "60"; "0.1"; "1e+21"; "0.000001"; "1e-7"; "-12.75"; "5e-324"].
Proof. vm_compute. reflexivity. Qed.

Example toString_values :
  Value.toString (JArr [JNum (Num.of_Z 1); JNull; JStr "a"]) = Ok "1,,a" /\
  Value.toString (JObj [("temp", JStr "1")]) = Ok "[object Object]" /\
  Value.toString Sample.unconvertible = Ok "[object Object]" /\
  Value.parseFloat (JObj [("toString", JNum (Num.of_Z 1))])
    = Throw (TypeError "Cannot convert object to primitive value").
Proof. vm_compute. repeat split; reflexivity. Qed.

Example match_capture_samples :
  match_capture "temp=" "temp=25.5&hum=60.0" = Some "25.5" /\
  match_capture "hum=" "temp=25.5&hum=60.0" = Some "60.0" /\
  match_capture "temp=" "temp=x temp=1.2.3;" = Some "1.2.3" /\
  match_capture "temp=" "temp=-5" = None /\
  match_capture "temp=" "[object Object]" = None.
Proof. vm_compute. repeat split; reflexivity. Qed.

(** The JSON body [{"temp": 25.5, "hum": 60}] is stored as 25.5 and 60. *)
Example json_numbers_stored :
  read_fields
    (Sample.json_request
       (JObj [("temp", JNum (Num.parseFloat_string "25.5"));
              ("hum", JNum (Num.of_Z 60))]))
  = Ok (Num.parseFloat_string "25.5", Num.of_Z 60).
Proof. vm_compute. reflexivity. Qed.

(** Absent fields, and a body no parser read, are stored as 0 and 0. *)
Example absent_fields_stored :
  read_fields (Sample.json_request (JObj [])) = Ok (Num.zero, Num.zero) /\
  read_fields (Sample.text_request "hello") = Ok (Num.zero, Num.zero) /\
  read_fields {| headers := []; body := JObj []; query := [] |}
    = Ok (Num.zero, Num.zero) /\
  read_fields {| headers := []; body := JUndefined; query := [] |}
    = Ok (Num.zero, Num.zero).
Proof. vm_compute. repeat split; reflexivity. Qed.

(** ** Lists and slices *)

Lemma js_slice_prefix {A : Type} (n : nat) (l : list A) :
  js_slice 0 (Z.of_nat n) l = firstn n l.
Proof.
  unfold js_slice.
  replace (0 <? 0) with false by reflexivity.
  destruct (Z.of_nat n <? 0) eqn:Hneg; [apply Z.ltb_lt in Hneg; lia|].
  rewrite (Z.min_l 0) by lia. simpl skipn.
  rewrite Z.sub_0_r.
  destruct (Z.min_spec (Z.of_nat n) (Z.of_nat (List.length l))) as [[Hlt ->]|[Hge ->]].
  - now rewrite Nat2Z.id.
  - rewrite Nat2Z.id, !firstn_all2; auto; lia.
Qed.

Lemma js_slice_100 {A : Type} (l : list A) : js_slice 0 100 l = firstn 100 l.
Proof. exact (js_slice_prefix 100 l). Qed.

Lemma js_slice_10 {A : Type} (l : list A) : js_slice 0 10 l = firstn 10 l.
Proof. exact (js_slice_prefix 10 l). Qed.

Lemma firstn_app_firstn {A : Type} (n : nat) (a b : list A) :
  firstn n (a ++ firstn n b) = firstn n (a ++ b).
Proof.
  rewrite !firstn_app, firstn_firstn.
  now replace (Nat.min (n - List.length a) n) with (n - List.length a)%nat by lia.
Qed.

Lemma capped_length e l : (List.length (capped e l) <= 100)%nat.
Proof. unfold capped. rewrite length_firstn. lia. Qed.

(** ** POST /api/data, one request *)

Lemma ingest_ok host req st fields :
  read_fields req = Ok fields ->
  ingest host req st =
    (count_success
       (set_sensorData (capped (data_entry host req fields) (sensorData st)) st),
     Ok (PostOk "Data received successfully" (data_entry host req fields)
           (List.length (capped (data_entry host req fields) (sensorData st)))
           "Node.js API on Render")).
Proof.
  intros Hread.
  unfold ingest, try_catch, bind, lift, modify, get_state, ret.
  rewrite Hread. cbn [fst snd unshift set_sensorData sensorData apiStats].
  fold (data_entry host req fields).
  destruct (Nat.ltb_spec 100 (List.length (data_entry host req fields :: sensorData st)))
    as [Hlong | Hshort].
  - rewrite js_slice_100. reflexivity.
  - unfold capped. rewrite firstn_all2 by exact Hshort. reflexivity.
Qed.

Lemma ingest_throw host req st e :
  read_fields req = Throw e ->
  ingest host req st = (st, Ok (PostError (error_message e) help_text)).
Proof.
  intros Hread.
  unfold ingest, try_catch, bind, lift, ret.
  now rewrite Hread.
Qed.

Lemma post_data_counts host req st :
  post_data host req st = ingest host req (count_request (clock host 0) st).
Proof. reflexivity. Qed.

Lemma post_data_outcome host req st :
  post_outcome host req st (answer (post_data host req st)).
Proof.
  rewrite post_data_counts.
  destruct (read_fields req) as [fields | e] eqn:Hread.
  - rewrite (ingest_ok _ _ _ _ Hread). cbn [answer].
    exact (post_stored host req st fields Hread).
  - rewrite (ingest_throw _ _ _ _ Hread). cbn [answer].
    exact (post_rejected host req st e Hread).
Qed.

(** The history after a POST never has more than 100 entries, whatever
    it was before. *)
Lemma post_data_bounded host req st :
  (List.length (sensorData st) <= 100)%nat ->
  (List.length (sensorData (fst (answer (post_data host req st)))) <= 100)%nat.
Proof.
  intros Hlen.
  destruct (post_data_outcome host req st) as [fields _ | e _];
    cbn [fst sensorData count_success set_sensorData count_request].
  - apply capped_length.
  - exact Hlen.
Qed.

(** ** Sequences of requests *)

Lemma post_all_history rs : forall st,
  (List.length (sensorData st) <= 100)%nat ->
  sensorData (fst (post_all rs st)) =
    firstn 100 (rev (inserted (snd (post_all rs st))) ++ sensorData st).
Proof.
  induction rs as [| [host req] rest IH]; intros st Hlen.
  - cbn [post_all fst snd inserted rev app]. symmetry.
    apply firstn_all2. exact Hlen.
  - cbn [post_all].
    pose proof (post_data_outcome host req st) as Hout.
    pose proof (post_data_bounded host req st Hlen) as Hlen1.
    destruct (answer (post_data host req st)) as [st1 resp].
    specialize (IH st1 Hlen1).
    destruct (post_all rest st1) as [st2 resps].
    cbn [fst snd] in *.
    rewrite IH.
    inversion Hout as [fields Hread Hst | e Hread Hst]; subst st1 resp;
      cbn [inserted sensorData count_success set_sensorData count_request].
    + cbn [rev]. rewrite <- app_assoc. cbn [app].
      unfold capped. apply firstn_app_firstn.
    + reflexivity.
Qed.

Section Runs.

Variable toLocaleString : Z -> string.

Lemma serve_all_reachable rs : forall st,
  reachable toLocaleString st -> reachable toLocaleString (serve_all toLocaleString rs st).
Proof.
  induction rs as [| [[r host] req] rest IH]; intros st Hst.
  - exact Hst.
  - cbn [serve_all fold_left fst snd]. apply IH. now apply reachable_serve.
Qed.

Lemma get_simple_unshift host req st :
  sensorData (fst (serve toLocaleString GET_api_simple host req st)) =
    SimpleEntry (Iso (clock host 0))
      (Value.or (query_param "temp" req) (JStr "0"))
      (Value.or (query_param "hum" req) (JStr "0")) "GET"
    :: sensorData st.
Proof. reflexivity. Qed.

Lemma serve_all_simple_length host req n : forall st,
  List.length
    (sensorData (serve_all toLocaleString (repeat (GET_api_simple, host, req) n) st)) =
  (n + List.length (sensorData st))%nat.
Proof.
  induction n as [| n IH]; intros st.
  - reflexivity.
  - cbn [repeat]. unfold serve_all in *. cbn [fold_left fst snd].
    rewrite IH, get_simple_unshift. cbn [List.length]. lia.
Qed.

End Runs.

(** ** The two fields of a reading *)

(** In the form and JSON branches both fields go through [x || 0]: a
    field read as NaN, or as a zero, is stored as +0. *)
Lemma read_fields_typed req :
  typed req = true ->
  read_fields req =
    (t <-! Value.get (body req) "temp" ;;
     temperature <-! Value.parseFloat t ;;
     h <-! Value.get (body req) "hum" ;;
     humidity <-! Value.parseFloat h ;;
     Ok (number_or_zero temperature, number_or_zero humidity)).
Proof.
  unfold typed, read_fields. cbv zeta.
  destruct (Str.includes _ "application/x-www-form-urlencoded"); [reflexivity|].
  destruct (Str.includes _ "application/json"); [reflexivity|].
  discriminate.
Qed.

Lemma number_or_zero_nan : number_or_zero Num.NaN = Num.zero.
Proof. reflexivity. Qed.

Lemma SFeqb_refl (x : Num.JSNumber) : Num.is_nan x = false -> SFeqb x x = true.
Proof.
  destruct x as [s | s | | s m e]; intros Hnan; try discriminate.
  - reflexivity.
  - destruct s; reflexivity.
  - unfold SFeqb, SFcompare.
    destruct s; rewrite Z.compare_refl, Pos.compare_cont_refl; reflexivity.
Qed.

Lemma number_or_zero_equal (x : Num.JSNumber) :
  Num.is_nan x = false -> Num.equal (number_or_zero x) x = true.
Proof.
  intros Hnan. unfold number_or_zero, Num.equal.
  destruct x as [s | s | | s m e]; try discriminate; cbn [Num.truthy].
  - reflexivity.
  - now apply SFeqb_refl.
  - now apply SFeqb_refl.
Qed.

(** In the raw-text branch a field is 0 when its pattern does not match,
    and otherwise what [parseFloat] reads in the capture, NaN included. *)
Lemma read_fields_raw req text :
  typed req = false ->
  Value.toString (body req) = Ok text ->
  read_fields req =
    Ok (match match_capture "temp=" text with
        | Some g => Num.parseFloat_string g
        | None => Num.zero
        end,
        match match_capture "hum=" text with
        | Some g => Num.parseFloat_string g
        | None => Num.zero
        end).
Proof.
  unfold typed, read_fields. cbv zeta. intros Htyped Htext.
  apply orb_false_iff in Htyped as [-> ->].
  now rewrite Htext.
Qed.

Lemma capped_head e l : hd_error (capped e l) = Some e.
Proof. reflexivity. Qed.

(** ** The dashboard and the read-only routes *)

Section Rendering.

Variable toLocaleString : Z -> string.

Lemma map_result_length {A B : Type} (f : A -> Result B) (l : list A) :
  forall ys, map_result f l = Ok ys -> List.length ys = List.length l.
Proof.
  induction l as [| x rest IH]; intros ys H; cbn [map_result] in H.
  - now inversion H.
  - destruct (f x) as [y | e]; [| discriminate].
    destruct (map_result f rest) as [ys' | e]; [| discriminate].
    cbn [rbind] in H. inversion H; subst. cbn [List.length].
    now rewrite (IH ys' eq_refl).
Qed.

Lemma map_result_nth {A B : Type} (f : A -> Result B) (l : list A) :
  forall ys i x, map_result f l = Ok ys -> nth_error l i = Some x ->
                 exists y, nth_error ys i = Some y /\ f x = Ok y.
Proof.
  induction l as [| a rest IH]; intros ys i x H Hi; cbn [map_result] in H.
  - destruct i; discriminate.
  - destruct (f a) as [y | e] eqn:Hfa; [| discriminate].
    destruct (map_result f rest) as [ys' | e]; [| discriminate].
    cbn [rbind] in H. inversion H; subst.
    destruct i as [| i]; cbn [nth_error] in *.
    + inversion Hi; subst. now exists y.
    + now apply IH.
Qed.

(** A reading stored by POST /api/data always renders. *)
Lemma card_reading id ts x y received client :
  exists text,
    card toLocaleString (Reading id ts x y received client) = Ok text.
Proof. destruct ts. now eexists. Qed.

Lemma render_cards history :
  render toLocaleString history =
    (cs <-! map_result (card toLocaleString) (firstn 10 history) ;;
     Ok (Page.head ++ Str.of_nat (List.length history) ++ Page.middle
           ++ Str.join_empty cs ++ Page.tail)).
Proof. unfold render, cards. now rewrite js_slice_10. Qed.

End Rendering.

(** When the content type selects the form or the JSON branch and
    [parseFloat] reads the [temp] and [hum] values of the body as numbers
    [x] and [y], the request succeeds and the reading stored at the front of
    the history has temperature [x] and humidity [y] (as [===] compares
    Numbers: a parsed -0 is stored as +0). *)
Lemma numeric_fields_stored (host : Host) (req : Request) (st : State)
  (t h : JSValue) (x y : Num.JSNumber) :
  typed req = true ->
  Value.get (body req) "temp" = Ok t -> Value.parseFloat t = Ok x ->
  Num.is_nan x = false ->
  Value.get (body req) "hum" = Ok h -> Value.parseFloat h = Ok y ->
  Num.is_nan y = false ->
  let out := answer (post_data host req st) in
  exists temperature humidity,
    hd_error (sensorData (fst out)) =
      Some (Reading (clock host 1) (Iso (clock host 2)) temperature humidity
              (Locale (clock host 3)) (header_or "user-agent" "Unknown" req)) /\
    snd out =
      PostOk "Data received successfully"
        (Reading (clock host 1) (Iso (clock host 2)) temperature humidity
           (Locale (clock host 3)) (header_or "user-agent" "Unknown" req))
        (List.length (sensorData (fst out))) "Node.js API on Render" /\
    Num.equal temperature x = true /\ Num.equal humidity y = true /\
    temperature = (if Num.truthy x then x else Num.zero) /\
    humidity = (if Num.truthy y then y else Num.zero).
Proof.
  intros Htyped Ht Hx Hxn Hh Hy Hyn out.
  assert (Hread : read_fields req = Ok (number_or_zero x, number_or_zero y)).
  { rewrite (read_fields_typed req Htyped), Ht. cbn [rbind].
    rewrite Hx. cbn [rbind]. rewrite Hh. cbn [rbind]. now rewrite Hy. }
  exists (number_or_zero x), (number_or_zero y).
  unfold out. rewrite post_data_counts, (ingest_ok _ _ _ _ Hread).
  cbn [answer fst snd count_success set_sensorData sensorData].
  repeat split.
  - now apply number_or_zero_equal.
  - now apply number_or_zero_equal.
Qed.

(** The cards of the dashboard page are the cards of the first 10
    entries of the history, in order, and of no other entry: the page is
    the fixed text around the count of all entries and these cards.  When
    they render there are min(10, length) of them, the i-th being the card
    of the i-th entry; a history of at most 10 entries is rendered whole. *)
Lemma dashboard_ten_most_recent (toLocaleString : Z -> string)
  (host : Host) (req : Request) (st : State) :
  let history := sensorData st in
  cards toLocaleString history =
    map_result (card toLocaleString) (firstn 10 history) /\
  serve toLocaleString GET_dashboard host req st =
    (st,
     match map_result (card toLocaleString) (firstn 10 history) with
     | Ok cs =>
         Html (Page.head ++ Str.of_nat (List.length history) ++ Page.middle
                 ++ Str.join_empty cs ++ Page.tail)
     | Throw e => InternalError e
     end) /\
  (forall cs, cards toLocaleString history = Ok cs ->
     List.length cs = Nat.min 10 (List.length history) /\
     forall i item, (i < 10)%nat -> nth_error history i = Some item ->
       exists text, nth_error cs i = Some text /\
                    card toLocaleString item = Ok text) /\
  ((List.length history <= 10)%nat -> firstn 10 history = history) /\
  (forall older, (10 <= List.length history)%nat ->
     cards toLocaleString (firstn 10 history ++ older) =
       cards toLocaleString history).
Proof.
  intros history.
  assert (Hcards : cards toLocaleString history =
                   map_result (card toLocaleString) (firstn 10 history))
    by (unfold cards; now rewrite js_slice_10).
  split; [exact Hcards |].
  split; [| split; [| split]].
  - unfold serve. cbn [route_handler].
    unfold get_dashboard, bind, get_state, lift, ret.
    rewrite render_cards. fold history.
    now destruct (map_result (card toLocaleString) (firstn 10 history)).
  - intros cs Hcs. rewrite Hcards in Hcs. split.
    + rewrite (map_result_length _ _ _ Hcs). apply length_firstn.
    + intros i item Hi Hitem.
      apply (map_result_nth _ _ _ i item Hcs).
      clear - Hi Hitem. revert i Hi Hitem.
      generalize 10%nat as n, history as l.
      induction n as [| n IH]; intros l i Hi Hitem; [lia |].
      destruct l as [| a l]; [now destruct i |].
      destruct i as [| i]; [exact Hitem |].
      cbn [firstn nth_error] in *. apply IH; [lia | exact Hitem].
  - intros Hshort. now apply firstn_all2.
  - intros older Hlong. rewrite Hcards. unfold cards.
    rewrite js_slice_10, firstn_app, firstn_firstn, length_firstn.
    replace (Nat.min 10 10) with 10%nat by reflexivity.
    replace (10 - Nat.min 10 (List.length history))%nat with 0%nat by lia.
    now rewrite firstn_O, app_nil_r.
Qed.

(** ** The claims *)

(** C1.  The history does not stay within 100 entries after every mutating
    operation: GET /api/simple puts its entry at the front and discards
    nothing, so 101 such requests lead the service from its initial state
    to a reachable state whose history has 101 entries. *)
Theorem simple_requests_exceed_cap (toLocaleString : Z -> string)
  (host : Host) (req : Request) :
  let st :=
    serve_all toLocaleString (repeat (GET_api_simple, host, req) 101) initial in
  reachable toLocaleString st /\
  mutating GET_api_simple = true /\
  List.length (sensorData st) = 101%nat.
Proof.
  intros st. split; [| split].
  - apply serve_all_reachable. constructor.
  - reflexivity.
  - unfold st. now rewrite serve_all_simple_length.
Qed.

(** C2.  From a history of at most 100 entries, any sequence of POST
    /api/data requests leaves at most 100 entries; when 105 readings were
    inserted, the history has exactly 100 entries: the last 100 readings
    inserted, newest first. *)
Theorem post_history_bounded (rs : list (Host * Request)) (st : State) :
  (List.length (sensorData st) <= 100)%nat ->
  let final := fst (post_all rs st) in
  let readings := inserted (snd (post_all rs st)) in
  (List.length (sensorData final) <= 100)%nat /\
  (List.length readings = 105%nat ->
   List.length (sensorData final) = 100%nat /\
   sensorData final = rev (skipn 5 readings)).
Proof.
  intros Hlen final readings.
  pose proof (post_all_history rs st Hlen) as Hhist.
  fold final readings in Hhist.
  split.
  - rewrite Hhist, length_firstn. lia.
  - intros H105.
    assert (Hcut : sensorData final = rev (skipn 5 readings)).
    { rewrite Hhist, firstn_app, length_rev, H105.
      change (100 - 105)%nat with 0%nat.
      rewrite firstn_O, app_nil_r, firstn_rev, H105.
      reflexivity. }
    split; [| exact Hcut].
    rewrite Hcut, length_rev, length_skipn, H105. reflexivity.
Qed.

Lemma post_history_bounded_witness :
  List.length
    (sensorData (fst (post_all (Sample.readings 105) initial))) = 100%nat /\
  sensorData (fst (post_all (Sample.readings 105) initial)) =
    rev (skipn 5 (inserted (snd (post_all (Sample.readings 105) initial)))).
Proof.
  refine (proj2 (post_history_bounded (Sample.readings 105) initial _) _).
  - cbn [initial sensorData List.length]. lia.
  - vm_compute. reflexivity.
Defined.

(** C3.  A field that does not parse is not always stored as 0: in the
    raw-text branch the body [temp=.&hum=60] matches the pattern with the
    capture ["."], which [parseFloat] reads as NaN, and the request is
    answered with the success shape and a stored temperature NaN. *)
Theorem raw_text_dot_stores_nan (host : Host) (st : State) :
  let out := answer (post_data host (Sample.text_request "temp=.&hum=60") st) in
  let stored :=
    Reading (clock host 1) (Iso (clock host 2)) Num.NaN (Num.of_Z 60)
            (Locale (clock host 3)) "Unknown" in
  match_capture "temp=" "temp=.&hum=60" = Some "." /\
  Num.parseFloat_string "." = Num.NaN /\
  is_success (snd out) = true /\
  hd_error (sensorData (fst out)) = Some stored /\
  Num.equal Num.NaN Num.zero = false.
Proof.
  intros out stored.
  assert (Hread : read_fields (Sample.text_request "temp=.&hum=60")
                  = Ok (Num.NaN, Num.of_Z 60)) by (vm_compute; reflexivity).
  unfold out. rewrite post_data_counts, (ingest_ok _ _ _ _ Hread).
  repeat split; reflexivity.
Qed.

(** C4.  A JSON body with numeric [temp] and [hum] is not always stored
    as the numbers parsed: the test of line 44 is case-sensitive, so under
    the content type [Application/JSON] the parsed body [{temp: 5, hum: 6}]
    goes through the raw-text branch, where its text [[object Object]]
    matches neither pattern, and the reading stored is 0 and 0, with the
    success shape. *)
Theorem mixed_case_json_type_stores_zero (host : Host) (st : State) :
  let req :=
    {| headers := [("content-type", "Application/JSON")];
       body := JObj [("temp", JNum (Num.of_Z 5)); ("hum", JNum (Num.of_Z 6))];
       query := [] |} in
  let out := answer (post_data host req st) in
  Value.parseFloat (JNum (Num.of_Z 5)) =
    Ok (S754_finite false 5629499534213120 (-50)) /\
  Value.parseFloat (JNum (Num.of_Z 6)) =
    Ok (S754_finite false 6755399441055744 (-50)) /\
  Str.includes "Application/JSON" "application/json" = false /\
  Value.toString (body req) = Ok "[object Object]" /\
  read_fields req = Ok (Num.zero, Num.zero) /\
  is_success (snd out) = true /\
  hd_error (sensorData (fst out)) =
    Some (Reading (clock host 1) (Iso (clock host 2)) Num.zero Num.zero
            (Locale (clock host 3)) "Unknown") /\
  Num.equal Num.zero (S754_finite false 5629499534213120 (-50)) = false /\
  Num.equal Num.zero (S754_finite false 6755399441055744 (-50)) = false.
Proof.
  intros req out.
  assert (Hread : read_fields req = Ok (Num.zero, Num.zero))
    by (vm_compute; reflexivity).
  unfold out. rewrite post_data_counts, (ingest_ok _ _ _ _ Hread).
  repeat split; try reflexivity; vm_compute; reflexivity.
Qed.

(** C5.  POST /api/data first adds one to [totalRequests] and sets
    [lastRequest], and only then runs the parsing block, on the state so
    updated; in the state it leaves, [totalRequests] is one more than
    before and [lastRequest] is the instant of the request, whether the
    block threw or not, and [successfulPosts] is one more than before when
    the block completed and unchanged when it threw. *)
Theorem post_data_counters (host : Host) (req : Request) (st : State) :
  let counted := count_request (clock host 0) st in
  let out := answer (post_data host req st) in
  post_data host req st = ingest host req counted /\
  totalRequests (apiStats counted) = N.succ (totalRequests (apiStats st)) /\
  lastRequest (apiStats counted) = Some (Iso (clock host 0)) /\
  successfulPosts (apiStats counted) = successfulPosts (apiStats st) /\
  sensorData counted = sensorData st /\
  totalRequests (apiStats (fst out)) = N.succ (totalRequests (apiStats st)) /\
  lastRequest (apiStats (fst out)) = Some (Iso (clock host 0)) /\
  match read_fields req with
  | Ok _ =>
      is_success (snd out) = true /\
      successfulPosts (apiStats (fst out)) =
        N.succ (successfulPosts (apiStats st))
  | Throw e =>
      snd out = PostError (error_message e) help_text /\
      successfulPosts (apiStats (fst out)) = successfulPosts (apiStats st)
  end.
Proof.
  intros counted out.
  repeat (split; [reflexivity |]).
  unfold out.
  destruct (post_data_outcome host req st) as [fields Hread | e Hread];
    rewrite Hread; repeat split; reflexivity.
Qed.

(** C10.  When POST /api/data answers with the failure response, the
    history and [successfulPosts] are what they were before the request,
    [totalRequests] is one more and [lastRequest] is the instant of the
    request. *)
Theorem post_error_keeps_history (host : Host) (req : Request) (st : State)
  (error help : string) :
  snd (answer (post_data host req st)) = PostError error help ->
  let st' := fst (answer (post_data host req st)) in
  sensorData st' = sensorData st /\
  successfulPosts (apiStats st') = successfulPosts (apiStats st) /\
  totalRequests (apiStats st') = N.succ (totalRequests (apiStats st)) /\
  lastRequest (apiStats st') = Some (Iso (clock host 0)).
Proof.
  intros Hresp st'. unfold st'.
  destruct (post_data_outcome host req st) as [fields Hread | e Hread].
  - discriminate Hresp.
  - repeat split; reflexivity.
Qed.

Lemma post_error_keeps_history_witness :
  let st := fst (post_all (Sample.readings 3) initial) in
  let out :=
    answer (post_data Sample.host (Sample.json_request Sample.unconvertible) st) in
  snd out = PostError "Cannot convert object to primitive value" help_text /\
  sensorData (fst out) = sensorData st /\
  successfulPosts (apiStats (fst out)) = 3%N /\
  totalRequests (apiStats (fst out)) = 4%N /\
  lastRequest (apiStats (fst out)) = Some (Iso (clock Sample.host 0)).
Proof.
  intros st out. split; [reflexivity |].
  exact (post_error_keeps_history Sample.host
           (Sample.json_request Sample.unconvertible) st
           "Cannot convert object to primitive value" help_text eq_refl).
Defined.

(** C6.  GET /api/simple with [temp=12] and [hum=34] puts the entry with
    temperature ["12"], humidity ["34"] (the strings received) and method
    ["GET"] at the front of the history; an absent parameter is stored as
    the string ["0"]; nothing is removed from the history, whose length
    grows by one whatever it was, also beyond 100. *)
Theorem get_simple_stores_strings (toLocaleString : Z -> string)
  (host : Host) (req : Request) (st : State) :
  let out := serve toLocaleString GET_api_simple host req st in
  (query_param "temp" req = JStr "12" -> query_param "hum" req = JStr "34" ->
   out = (unshift (SimpleEntry (Iso (clock host 0)) (JStr "12") (JStr "34") "GET") st,
          SimpleOk (SimpleEntry (Iso (clock host 0)) (JStr "12") (JStr "34") "GET"))) /\
  (query_param "temp" req = JUndefined ->
   exists ts hum, hd_error (sensorData (fst out)) =
                    Some (SimpleEntry ts (JStr "0") hum "GET")) /\
  (query_param "hum" req = JUndefined ->
   exists ts temp, hd_error (sensorData (fst out)) =
                     Some (SimpleEntry ts temp (JStr "0") "GET")) /\
  (exists entry, sensorData (fst out) = entry :: sensorData st) /\
  List.length (sensorData (fst out)) = S (List.length (sensorData st)) /\
  apiStats (fst out) = apiStats st.
Proof.
  intros out. unfold out.
  split; [| split; [| split; [| split; [| split]]]].
  - intros Ht Hh. unfold serve. cbn [route_handler].
    unfold get_simple. rewrite Ht, Hh. reflexivity.
  - intros Ht. rewrite get_simple_unshift, Ht. cbn [hd_error Value.or Value.truthy].
    now eexists _, _.
  - intros Hh. rewrite get_simple_unshift, Hh. cbn [hd_error Value.or Value.truthy].
    now eexists _, _.
  - rewrite get_simple_unshift. now eexists.
  - now rewrite get_simple_unshift.
  - reflexivity.
Qed.

Lemma get_simple_stores_strings_witness :
  let full := fst (post_all (Sample.readings 100) initial) in
  let req := Sample.query_request [("temp", JStr "12"); ("hum", JStr "34")] in
  let out := serve Sample.locale GET_api_simple Sample.host req full in
  List.length (sensorData full) = 100%nat /\
  out = (unshift (SimpleEntry (Iso (clock Sample.host 0)) (JStr "12") (JStr "34") "GET") full,
         SimpleOk (SimpleEntry (Iso (clock Sample.host 0)) (JStr "12") (JStr "34") "GET")) /\
  List.length (sensorData (fst out)) = 101%nat.
Proof.
  intros full req out.
  assert (Hfull : List.length (sensorData full) = 100%nat)
    by (vm_compute; reflexivity).
  pose proof (get_simple_stores_strings Sample.locale Sample.host req full)
    as (H12 & _ & _ & _ & Hlen & _).
  split; [exact Hfull |].
  split; [exact (H12 eq_refl eq_refl) |].
  unfold out. rewrite Hlen, Hfull. reflexivity.
Defined.

(** C7.  The dashboard does not render in every state: after GET
    /api/simple with a [temp] parameter that is an object with an own
    [toString] property (the query [temp[toString]=1]), the entry stored at
    the front cannot be converted to text, the template of line 171 throws,
    and GET /dashboard is answered with status 500 and no page, whatever the
    rest of the history is. *)
Theorem dashboard_fails_on_unconvertible_entry (toLocaleString : Z -> string)
  (host host' : Host) (req' : Request) (st : State) :
  let req :=
    {| headers := []; body := JUndefined;
       query := [("temp", JObj [("toString", JStr "1")])] |} in
  let st' := fst (serve toLocaleString GET_api_simple host req st) in
  reachable toLocaleString
    (fst (serve toLocaleString GET_api_simple host req initial)) /\
  sensorData st' =
    SimpleEntry (Iso (clock host 0)) (JObj [("toString", JStr "1")]) (JStr "0")
      "GET" :: sensorData st /\
  serve toLocaleString GET_dashboard host' req' st' =
    (st', InternalError (TypeError "Cannot convert object to primitive value")) /\
  status_code
    (snd (serve toLocaleString GET_dashboard host' req' st')) = 500.
Proof.
  intros req st'.
  assert (Hpage : serve toLocaleString GET_dashboard host' req' st' =
            (st', InternalError
                    (TypeError "Cannot convert object to primitive value"))).
  { unfold serve. cbn [route_handler].
    unfold get_dashboard, bind, get_state, lift, ret.
    rewrite render_cards. unfold st'. rewrite get_simple_unshift.
    reflexivity. }
  split; [apply reachable_serve, reachable_initial |].
  split; [reflexivity |].
  split; [exact Hpage |].
  now rewrite Hpage.
Qed.

(** C8.  GET /api/test answers the plain text
    [OK - Node.js API is working!] in every state, and leaves the state as
    it was. *)
Theorem test_probe_text (toLocaleString : Z -> string)
  (host : Host) (req : Request) (st : State) :
  serve toLocaleString GET_api_test host req st =
    (st, PlainText "OK - Node.js API is working!").
Proof. reflexivity. Qed.

(** C9.  GET /api/data, GET /api/test, GET /api/health, GET /dashboard
    and GET / leave the history and the three counters as they were: the
    state after the request is the state before it. *)
Theorem read_only_routes_keep_state (toLocaleString : Z -> string)
  (r : Route) (host : Host) (req : Request) (st : State) :
  In r [GET_api_data; GET_api_test; GET_api_health; GET_dashboard; GET_root] ->
  fst (serve toLocaleString r host req st) = st.
Proof.
  intros Hr. cbn [In] in Hr.
  destruct Hr as [<- | [<- | [<- | [<- | [<- | []]]]]]; try reflexivity.
  unfold serve. cbn [route_handler].
  unfold get_dashboard, bind, get_state, lift, ret.
  now destruct (render toLocaleString (sensorData st)).
Qed.

Lemma read_only_routes_keep_state_witness :
  let st := fst (post_all (Sample.readings 3) initial) in
  fst (serve Sample.locale GET_dashboard Sample.host (Sample.query_request []) st)
  = st.
Proof.
  intros st.
  apply (read_only_routes_keep_state Sample.locale GET_dashboard).
  cbn [In]. right. right. right. left. reflexivity.
Defined.

(** * Further properties *)

(** ** Substrings and the content type *)

Lemma prefix_app (p s : string) :
  prefix p s = true <-> exists post, s = p ++ post.
Proof.
  revert s. induction p as [| a p IH]; intros s.
  - destruct s; cbn; split; eauto.
  - destruct s as [| b s]; cbn.
    + split; [discriminate | intros [post H]; discriminate].
    + destruct (ascii_dec a b) as [-> | Hab].
      * rewrite IH. split; intros [post H]; exists post; [now rewrite H | now inversion H].
      * split; [discriminate | intros [post H]; inversion H; congruence].
Qed.

Lemma includes_unfold (s sub : string) :
  Str.includes s sub =
    if prefix sub s then true
    else match s with
         | EmptyString => false
         | String _ rest => Str.includes rest sub
         end.
Proof. destruct s; reflexivity. Qed.

Lemma includes_spec (s sub : string) :
  Str.includes s sub = true <-> exists pre post, s = pre ++ sub ++ post.
Proof.
  split.
  - induction s as [| c rest IH]; rewrite includes_unfold;
      destruct (prefix sub _) eqn:Hp.
    + intros _. apply prefix_app in Hp as [post ->]. now exists EmptyString, post.
    + discriminate.
    + intros _. apply prefix_app in Hp as [post ->]. now exists EmptyString, post.
    + intros H. destruct (IH H) as (pre & post & ->).
      now exists (String c pre), post.
  - intros (pre & post & ->). induction pre as [| c pre IH].
    + rewrite includes_unfold.
      replace (prefix sub (EmptyString ++ sub ++ post)) with true; [reflexivity |].
      symmetry. apply prefix_app. now exists post.
    + rewrite includes_unfold. cbn [append].
      destruct (prefix sub _); [reflexivity | exact IH].
Qed.

(** X1.  The branch of lines 40 to 56 is chosen by a case-sensitive
    substring test on the content type: a content type that contains
    [application/x-www-form-urlencoded] or [application/json] anywhere, for
    instance followed by a charset parameter, reads the two fields off the
    parsed body; every other content type, a missing one included, reads
    them off the text of the body. *)
Theorem content_type_dispatch (req : Request) :
  let contentType := header_or "content-type" EmptyString req in
  ((exists pre post,
      contentType = pre ++ "application/x-www-form-urlencoded" ++ post \/
      contentType = pre ++ "application/json" ++ post) ->
   read_fields req =
     (t <-! Value.get (body req) "temp" ;;
      temperature <-! Value.parseFloat t ;;
      h <-! Value.get (body req) "hum" ;;
      humidity <-! Value.parseFloat h ;;
      Ok (number_or_zero temperature, number_or_zero humidity))) /\
  ((forall pre post,
      contentType <> pre ++ "application/x-www-form-urlencoded" ++ post /\
      contentType <> pre ++ "application/json" ++ post) ->
   read_fields req =
     (bodyString <-! Value.toString (body req) ;;
      Ok (match match_capture "temp=" bodyString with
          | Some g => Num.parseFloat_string g
          | None => Num.zero
          end,
          match match_capture "hum=" bodyString with
          | Some g => Num.parseFloat_string g
          | None => Num.zero
          end))).
Proof.
  intros contentType. split.
  - intros (pre & post & H). apply read_fields_typed.
    unfold typed. fold contentType. apply orb_true_iff.
    destruct H as [H | H]; [left | right]; apply includes_spec; eauto.
  - intros H. unfold read_fields. fold contentType.
    destruct (Str.includes contentType "application/x-www-form-urlencoded") eqn:Hf.
    { apply includes_spec in Hf as (pre & post & Hf).
      now destruct (H pre post) as [Hn _]. }
    destruct (Str.includes contentType "application/json") eqn:Hj.
    { apply includes_spec in Hj as (pre & post & Hj).
      now destruct (H pre post) as [_ Hn]. }
    reflexivity.
Qed.

Lemma content_type_dispatch_witness :
  read_fields
    {| headers := [("content-type", "application/json; charset=utf-8")];
       body := JObj [("temp", JStr "21.5"); ("hum", JNum (Num.of_Z 40))];
       query := [] |}
  = Ok (Num.parseFloat_string "21.5", Num.of_Z 40).
Proof.
  rewrite (proj1 (content_type_dispatch _)).
  - vm_compute. reflexivity.
  - exists EmptyString, "; charset=utf-8". right. reflexivity.
Defined.

(** ** The patterns of the raw-text branch *)

Lemma strip_prefix_spec (p s after : string) :
  Str.strip_prefix p s = Some after <-> s = p ++ after.
Proof.
  revert s. induction p as [| a p IH]; intros s.
  - destruct s; cbn; split; congruence.
  - destruct s as [| b s]; cbn.
    + split; discriminate.
    + destruct (Ascii.eqb_spec a b) as [-> | Hab].
      * rewrite IH. split; congruence.
      * split; [discriminate | congruence].
Qed.

Lemma span_spec (f : ascii -> bool) (s a b : string) :
  Str.span f s = (a, b) ->
  s = a ++ b /\ all_chars f a = true /\ starts_with_char f b = false.
Proof.
  revert a b. induction s as [| c rest IH]; intros a b H; cbn in H.
  - inversion H; subst. now repeat split.
  - destruct (f c) eqn:Hc.
    + destruct (Str.span f rest) as [a' b'].
      inversion H; subst.
      destruct (IH a' b eq_refl) as (-> & Hall & Hb).
      cbn. now rewrite Hc, Hall.
    + inversion H; subst. cbn. now rewrite Hc.
Qed.

Lemma match_capture_unfold (key s : string) :
  match_capture key s =
    match capture_here key s with
    | Some cap => Some cap
    | None =>
        match s with
        | EmptyString => None
        | String _ rest => match_capture key rest
        end
    end.
Proof. destruct s; reflexivity. Qed.

Lemma capture_here_some (key s cap : string) :
  capture_here key s = Some cap ->
  cap <> EmptyString /\
  all_chars Str.is_digit_or_dot cap = true /\
  exists post, s = key ++ cap ++ post /\
               starts_with_char Str.is_digit_or_dot post = false.
Proof.
  unfold capture_here.
  destruct (Str.strip_prefix key s) as [after |] eqn:Hk; [| discriminate].
  destruct (Str.span Str.is_digit_or_dot after) as [cap' post] eqn:Hspan.
  destruct cap' as [| c0 cap']; cbn [Str.is_empty]; [discriminate |].
  intros H; inversion H; subst.
  apply strip_prefix_spec in Hk.
  destruct (span_spec _ _ _ _ Hspan) as (-> & Hall & Hpost).
  repeat split; [discriminate | exact Hall |].
  now exists post.
Qed.

Lemma capture_here_none (key s : string) :
  capture_here key s = None ->
  forall c post, s = key ++ String c post -> Str.is_digit_or_dot c = false.
Proof.
  unfold capture_here. intros H c post ->.
  rewrite (proj2 (strip_prefix_spec key _ (String c post)) eq_refl) in H.
  cbn [Str.span] in H.
  destruct (Str.is_digit_or_dot c); [| reflexivity].
  destruct (Str.span Str.is_digit_or_dot post). discriminate.
Qed.

(** X2.  What [s.match(/key([\d.]+)/)] captures: a non-empty run of digits
    and dots that follows the first occurrence of the key followed by a
    digit or a dot, taken as far as digits and dots go. *)
Theorem match_capture_sound (key s cap : string) :
  match_capture key s = Some cap ->
  cap <> EmptyString /\
  all_chars Str.is_digit_or_dot cap = true /\
  exists pre post,
    s = pre ++ key ++ cap ++ post /\
    starts_with_char Str.is_digit_or_dot post = false /\
    forall pre' c post',
      s = pre' ++ key ++ String c post' -> Str.is_digit_or_dot c = true ->
      (String.length pre <= String.length pre')%nat.
Proof.
  induction s as [| a rest IH]; rewrite match_capture_unfold;
    destruct (capture_here key _) as [cap' |] eqn:Hhere.
  - intros H; inversion H; subst.
    destruct (capture_here_some _ _ _ Hhere) as (Hne & Hall & post & Hs & Hpost).
    repeat split; [exact Hne | exact Hall |].
    exists EmptyString, post. repeat split; [exact Hs | exact Hpost |].
    intros; cbn; lia.
  - discriminate.
  - intros H; inversion H; subst.
    destruct (capture_here_some _ _ _ Hhere) as (Hne & Hall & post & Hs & Hpost).
    repeat split; [exact Hne | exact Hall |].
    exists EmptyString, post. repeat split; [exact Hs | exact Hpost |].
    intros; cbn; lia.
  - intros H.
    destruct (IH H) as (Hne & Hall & pre & post & -> & Hpost & Hfirst).
    repeat split; [exact Hne | exact Hall |].
    exists (String a pre), post. repeat split; [exact Hpost |].
    intros pre' c post' Hs Hc.
    destruct pre' as [| a' pre'].
    + rewrite (capture_here_none _ _ Hhere c post' Hs) in Hc. discriminate.
    + cbn [append] in Hs. inversion Hs; subst.
      cbn [String.length]. apply le_n_S. now apply (Hfirst pre' c post').
Qed.

Lemma match_capture_sound_witness :
  exists pre post,
    "id=7;temp=25.5C&temp=3" = pre ++ "temp=" ++ "25.5" ++ post /\
    starts_with_char Str.is_digit_or_dot post = false /\
    forall pre' c post',
      "id=7;temp=25.5C&temp=3" = pre' ++ "temp=" ++ String c post' ->
      Str.is_digit_or_dot c = true ->
      (String.length pre <= String.length pre')%nat.
Proof.
  exact (proj2 (proj2 (match_capture_sound "temp=" "id=7;temp=25.5C&temp=3"
                         "25.5" eq_refl))).
Defined.

(** X3.  The match is [null] exactly when no occurrence of the key in the
    text is followed by a digit or a dot: a sign, a space or a letter after
    the key leaves the field unmatched. *)
Theorem match_capture_none (key s : string) :
  match_capture key s = None <->
  (forall pre c post,
     s = pre ++ key ++ String c post -> Str.is_digit_or_dot c = false).
Proof.
  split.
  - intros Hnone pre. revert s Hnone.
    induction pre as [| a pre IH]; intros s Hnone c post Hs;
      rewrite match_capture_unfold in Hnone;
      destruct (capture_here key s) as [cap |] eqn:Hhere; try discriminate.
    + exact (capture_here_none _ _ Hhere c post Hs).
    + subst s. cbn [append] in Hnone. now apply (IH _ Hnone c post).
  - induction s as [| a rest IH]; intros Hno; rewrite match_capture_unfold;
      destruct (capture_here key _) as [cap |] eqn:Hhere; try reflexivity.
    + destruct (capture_here_some _ _ _ Hhere) as (Hne & Hall & post & Hs & _).
      destruct cap as [| c cap]; [contradiction |].
      cbn in Hall. apply andb_true_iff in Hall as [Hc _].
      rewrite (Hno EmptyString c (cap ++ post) Hs) in Hc. discriminate.
    + destruct (capture_here_some _ _ _ Hhere) as (Hne & Hall & post & Hs & _).
      destruct cap as [| c cap]; [contradiction |].
      cbn in Hall. apply andb_true_iff in Hall as [Hc _].
      rewrite (Hno EmptyString c (cap ++ post) Hs) in Hc. discriminate.
    + apply IH. intros pre c post Hs.
      apply (Hno (String a pre) c post). cbn [append]. now rewrite Hs.
Qed.

(** ** What the two fields can be *)

Lemma binary_round_aux_sign (m e : Z) (l : location) :
  sign_negative (binary_round_aux Num.prec Num.emax false m e l) = false.
Proof.
  unfold binary_round_aux.
  destruct (shr_fexp _ _ m e l) as [mrs e1].
  destruct (shr_fexp _ _ _ e1 loc_Exact) as [mrs' e2].
  destruct (shr_m mrs'); [reflexivity | | reflexivity].
  now destruct (e2 <=? Num.emax - Num.prec)%Z.
Qed.

Lemma of_decimal_sign (m : N) (e : Z) :
  sign_negative (Num.of_decimal false m e) = false.
Proof.
  unfold Num.of_decimal. destruct m as [| p]; [reflexivity |].
  destruct (Z.leb_spec 0 e) as [He | He].
  - cbn [cond_Zopp].
    assert (Hpos : 0 < Z.pos p * 10 ^ e) by (apply Z.mul_pos_pos; lia).
    destruct (Z.pos p * 10 ^ e) as [| q | q]; try lia.
    cbn [binary_normalize]. unfold binary_round.
    destruct (shl_align _ _ _) as [mz ez]. apply binary_round_aux_sign.
  - cbn [SFdiv]. destruct (SFdiv_core_binary _ _ _ _ _ _) as [[mz ez] lz].
    apply binary_round_aux_sign.
Qed.

Lemma unsigned_literal_sign (s : string) (x : Num.JSNumber) :
  Num.unsigned_literal false s = Some x -> sign_negative x = false.
Proof.
  unfold Num.unsigned_literal.
  destruct (prefix "Infinity" s); [intros H; now inversion H |].
  destruct (Str.span Str.is_digit s) as [ip r1].
  destruct (match r1 with
            | String "."%char r => Str.span Str.is_digit r
            | _ => (EmptyString, r1)
            end) as [fp r2].
  destruct (Str.is_empty ip && Str.is_empty fp); [discriminate |].
  intros H; inversion H. apply of_decimal_sign.
Qed.

(** A text that starts with a digit or a dot has no white space to trim
    and no sign. *)
Lemma parseFloat_unsigned (c : ascii) (rest : string) :
  Str.is_digit_or_dot c = true ->
  Num.parseFloat_string (String c rest) =
    match Num.unsigned_literal false (String c rest) with
    | Some x => x
    | None => Num.NaN
    end.
Proof.
  intros Hc. unfold Num.parseFloat_string, Num.trim_start.
  cbn [String.length Num.trim_start_fuel].
  destruct c as [[] [] [] [] [] [] [] []]; try discriminate Hc; reflexivity.
Qed.

Lemma parseFloat_capture_sign (cap : string) :
  all_chars Str.is_digit_or_dot cap = true ->
  sign_negative (Num.parseFloat_string cap) = false.
Proof.
  destruct cap as [| c rest]; [reflexivity |].
  cbn [all_chars]. intros H. apply andb_true_iff in H as [Hc _].
  rewrite (parseFloat_unsigned c rest Hc).
  destruct (Num.unsigned_literal false (String c rest)) as [x |] eqn:Hx;
    [exact (unsigned_literal_sign _ _ Hx) | reflexivity].
Qed.

Lemma match_capture_class (key text g : string) :
  match_capture key text = Some g ->
  all_chars Str.is_digit_or_dot g = true.
Proof.
  induction text as [| a rest IH]; rewrite match_capture_unfold;
    destruct (capture_here key _) as [cap |] eqn:Hhere; intros Hg;
    try discriminate.
  - inversion Hg; subst. apply (capture_here_some _ _ _ Hhere).
  - inversion Hg; subst. apply (capture_here_some _ _ _ Hhere).
  - now apply IH.
Qed.

Lemma capture_field_sign (key text : string) :
  sign_negative
    (match match_capture key text with
     | Some g => Num.parseFloat_string g
     | None => Num.zero
     end) = false.
Proof.
  destruct (match_capture key text) as [g |] eqn:Hg; [| reflexivity].
  apply parseFloat_capture_sign, (match_capture_class _ _ _ Hg).
Qed.

(** X4.  Through the raw-text branch no negative value is ever stored: the
    patterns do not match a sign, so both fields are a Number whose sign bit
    is clear (or NaN); a body such as [temp=-5] is stored as 0. *)
Theorem raw_fields_never_negative (req : Request)
  (temperature humidity : Num.JSNumber) :
  typed req = false ->
  read_fields req = Ok (temperature, humidity) ->
  sign_negative temperature = false /\ sign_negative humidity = false.
Proof.
  intros Htyped Hread.
  destruct (Value.toString (body req)) as [text | e] eqn:Htext.
  - rewrite (read_fields_raw req text Htyped Htext) in Hread.
    inversion Hread; subst. split; apply capture_field_sign.
  - unfold typed, read_fields in *. cbv zeta in *.
    apply orb_false_iff in Htyped as [Hf Hj].
    rewrite Hf, Hj, Htext in Hread. discriminate.
Qed.

Lemma raw_fields_never_negative_witness :
  read_fields (Sample.text_request "temp=-5&hum=60") = Ok (Num.zero, Num.of_Z 60) /\
  sign_negative Num.zero = false /\ sign_negative (Num.of_Z 60) = false.
Proof.
  split; [vm_compute; reflexivity |].
  exact (raw_fields_never_negative (Sample.text_request "temp=-5&hum=60")
           Num.zero (Num.of_Z 60) eq_refl eq_refl).
Defined.

Lemma number_or_zero_range (x : Num.JSNumber) :
  Num.is_nan (number_or_zero x) = false /\ number_or_zero x <> Num.neg_zero.
Proof.
  unfold number_or_zero, Num.neg_zero, Num.zero.
  destruct x as [s | s | | s m e]; cbn [Num.truthy Num.is_nan];
    split; try reflexivity; discriminate.
Qed.

(** X5.  Through the form and JSON branches neither NaN nor -0 is ever
    stored: whatever [parseFloat] reads goes through [|| 0]. *)
Theorem typed_fields_never_nan (req : Request)
  (temperature humidity : Num.JSNumber) :
  typed req = true ->
  read_fields req = Ok (temperature, humidity) ->
  Num.is_nan temperature = false /\ temperature <> Num.neg_zero /\
  Num.is_nan humidity = false /\ humidity <> Num.neg_zero.
Proof.
  intros Htyped Hread.
  rewrite (read_fields_typed req Htyped) in Hread.
  destruct (Value.get (body req) "temp") as [t | e]; [| discriminate].
  cbn [rbind] in Hread.
  destruct (Value.parseFloat t) as [x | e]; [| discriminate].
  cbn [rbind] in Hread.
  destruct (Value.get (body req) "hum") as [h | e]; [| discriminate].
  cbn [rbind] in Hread.
  destruct (Value.parseFloat h) as [y | e]; [| discriminate].
  cbn [rbind] in Hread. inversion Hread; subst.
  destruct (number_or_zero_range x) as [Hx Hx'].
  destruct (number_or_zero_range y) as [Hy Hy'].
  now repeat split.
Qed.

Lemma typed_fields_never_nan_witness :
  read_fields (Sample.form_request "abc" "-0") = Ok (Num.zero, Num.zero) /\
  Num.is_nan Num.zero = false /\ Num.zero <> Num.neg_zero.
Proof.
  split; [vm_compute; reflexivity |].
  destruct (typed_fields_never_nan (Sample.form_request "abc" "-0")
              Num.zero Num.zero eq_refl eq_refl) as (H1 & H2 & _).
  exact (conj H1 H2).
Defined.

(** ** Which requests POST /api/data accepts *)

Lemma parseFloat_primitive (v : JSValue) :
  primitive v = true -> exists x, Value.parseFloat v = Ok x.
Proof.
  destruct v as [| | [] | x | s | items | props]; intros H;
    try discriminate H; cbn; eauto.
Qed.

Lemma post_success_iff host req st :
  is_success (snd (answer (post_data host req st))) = true <->
  exists fields, read_fields req = Ok fields.
Proof.
  destruct (post_data_outcome host req st) as [fields Hread | e Hread];
    cbn [snd is_success]; rewrite Hread; split.
  - eauto.
  - reflexivity.
  - discriminate.
  - intros [fields H]. discriminate.
Qed.

(** X6.  A form or JSON request whose parsed body is an object is
    accepted whenever its [temp] and [hum] properties, where present, are
    not objects themselves: strings, numbers, booleans and [null] all
    convert, and a missing property reads as [undefined]. *)
Theorem primitive_fields_accepted (host : Host) (req : Request) (st : State)
  (props : list (string * JSValue)) :
  typed req = true ->
  body req = JObj props ->
  (forall v, Value.own "temp" props = Some v -> primitive v = true) ->
  (forall v, Value.own "hum" props = Some v -> primitive v = true) ->
  is_success (snd (answer (post_data host req st))) = true /\
  status_code (snd (answer (post_data host req st))) = 200.
Proof.
  intros Htyped Hbody Htemp Hhum.
  assert (Hread : exists fields, read_fields req = Ok fields).
  { rewrite (read_fields_typed req Htyped), Hbody. cbn [Value.get rbind].
    assert (Ht : primitive (match Value.own "temp" props with
                            | Some x => x | None => JUndefined end) = true)
      by (destruct (Value.own "temp" props); [now apply Htemp | reflexivity]).
    assert (Hh : primitive (match Value.own "hum" props with
                            | Some x => x | None => JUndefined end) = true)
      by (destruct (Value.own "hum" props); [now apply Hhum | reflexivity]).
    destruct (parseFloat_primitive _ Ht) as [x ->].
    destruct (parseFloat_primitive _ Hh) as [y ->].
    cbn [rbind]. eauto. }
  destruct (post_data_outcome host req st) as [fields Hf | e He].
  - now split.
  - destruct Hread as [fields Hf]. congruence.
Qed.

Lemma primitive_fields_accepted_witness :
  is_success
    (snd (answer
            (post_data Sample.host
               (Sample.json_request
                  (JObj [("temp", JNull); ("other", JObj [("toString", JNull)])]))
               initial))) = true.
Proof.
  apply (primitive_fields_accepted Sample.host _ initial
           [("temp", JNull); ("other", JObj [("toString", JNull)])]);
    try reflexivity.
  - intros v H. cbn in H. now inversion H.
  - intros v H. cbn in H. discriminate H.
Defined.

(** X7.  A body that is a string is accepted under every content type;
    under a form or JSON content type it has no [temp] and no [hum]
    property, and the reading stored is 0 and 0. *)
Theorem string_body_accepted (host : Host) (req : Request) (st : State)
  (text : string) :
  body req = JStr text ->
  is_success (snd (answer (post_data host req st))) = true /\
  (typed req = true -> read_fields req = Ok (Num.zero, Num.zero)).
Proof.
  intros Hbody.
  assert (Htyped : typed req = true -> read_fields req = Ok (Num.zero, Num.zero)).
  { intros Ht. rewrite (read_fields_typed req Ht), Hbody. reflexivity. }
  split; [| exact Htyped].
  apply post_success_iff.
  destruct (typed req) eqn:Ht.
  - eauto.
  - rewrite (read_fields_raw req text Ht); [eauto |].
    now rewrite Hbody.
Qed.

Lemma string_body_accepted_witness :
  is_success
    (snd (answer
            (post_data Sample.host
               {| headers := [("content-type", "text/plain; note=application/json")];
                  body := JStr "temp=25.5&hum=60";
                  query := [] |} initial))) = true /\
  read_fields
    {| headers := [("content-type", "text/plain; note=application/json")];
       body := JStr "temp=25.5&hum=60";
       query := [] |} = Ok (Num.zero, Num.zero).
Proof.
  destruct (string_body_accepted Sample.host
              {| headers := [("content-type", "text/plain; note=application/json")];
                 body := JStr "temp=25.5&hum=60";
                 query := [] |} initial "temp=25.5&hum=60" eq_refl)
    as [Hok Hzero].
  exact (conj Hok (Hzero eq_refl)).
Defined.

(** X8.  With no parsed body ([req.body] undefined), a form or JSON
    request is answered with the failure shape, the message of the
    TypeError and the fixed help text, and only the request counter and the
    last-request instant change; under any other content type the text
    [undefined] matches neither pattern and the reading 0, 0 is stored. *)
Theorem undefined_body (host : Host) (req : Request) (st : State) :
  body req = JUndefined ->
  let out := answer (post_data host req st) in
  (typed req = true ->
   out = (count_request (clock host 0) st,
          PostError "Cannot read properties of undefined (reading 'temp')"
            "Send data as: temp=25.5&hum=60.0")) /\
  (typed req = false ->
   read_fields req = Ok (Num.zero, Num.zero) /\ is_success (snd out) = true).
Proof.
  intros Hbody out. split; intros Ht.
  - assert (Hread : read_fields req =
              Throw (TypeError "Cannot read properties of undefined (reading 'temp')"))
      by (rewrite (read_fields_typed req Ht), Hbody; reflexivity).
    unfold out. now rewrite post_data_counts, (ingest_throw _ _ _ _ Hread).
  - assert (Hread : read_fields req = Ok (Num.zero, Num.zero))
      by (rewrite (read_fields_raw req "undefined" Ht);
          [reflexivity | now rewrite Hbody]).
    split; [exact Hread |]. apply post_success_iff. eauto.
Qed.

Lemma undefined_body_witness :
  answer (post_data Sample.host (Sample.json_request JUndefined) initial) =
    (count_request (clock Sample.host 0) initial,
     PostError "Cannot read properties of undefined (reading 'temp')"
       "Send data as: temp=25.5&hum=60.0").
Proof.
  exact (proj1 (undefined_body Sample.host (Sample.json_request JUndefined)
                  initial eq_refl) eq_refl).
Defined.

(** X9.  POST /api/data has two answers only: status 200 with the success
    shape when the fields were read, status 400 with the message of the
    exception and the fixed help text when reading them threw; no exception
    leaves the handler. *)
Theorem post_answers (host : Host) (req : Request) (st : State) :
  let resp := snd (answer (post_data host req st)) in
  match read_fields req with
  | Ok fields =>
      status_code resp = 200 /\
      exists count,
        resp = PostOk "Data received successfully" (data_entry host req fields)
                 count "Node.js API on Render" /\
        count = List.length (sensorData (fst (answer (post_data host req st))))
  | Throw e =>
      status_code resp = 400 /\
      resp = PostError (error_message e) "Send data as: temp=25.5&hum=60.0"
  end.
Proof.
  intros resp. unfold resp.
  destruct (post_data_outcome host req st) as [fields Hread | e Hread];
    rewrite Hread; cbn [snd fst status_code].
  - split; [reflexivity |]. eexists. split; reflexivity.
  - now split.
Qed.

(** ** One request on the state *)

Lemma firstn_forallb {A : Type} (f : A -> bool) (n : nat) (l : list A) :
  forallb f l = true -> forallb f (firstn n l) = true.
Proof.
  revert l. induction n as [| n IH]; intros [| a l]; cbn; try reflexivity.
  intros H. apply andb_true_iff in H as [Ha Hl]. now rewrite Ha, IH.
Qed.

Lemma map_result_firstn {A B : Type} (f : A -> Result B) (n : nat) :
  forall l ys, map_result f l = Ok ys ->
               map_result f (firstn n l) = Ok (firstn n ys).
Proof.
  induction n as [| n IH]; intros l ys H; [reflexivity |].
  destruct l as [| a l]; cbn [map_result] in H.
  - now inversion H.
  - destruct (f a) as [y | e] eqn:Hfa; [| discriminate].
    destruct (map_result f l) as [ys' | e] eqn:Hl; [| discriminate].
    cbn [rbind] in H. inversion H; subst.
    cbn [firstn map_result]. rewrite Hfa. cbn [rbind].
    now rewrite (IH l ys' Hl).
Qed.

Lemma header_or_filled (name dflt : string) (req : Request) :
  Str.is_empty dflt = false -> Str.is_empty (header_or name dflt req) = false.
Proof.
  intros H. unfold header_or.
  destruct (header name (headers req)) as [v |]; [| exact H].
  now destruct (Str.is_empty v) eqn:Hv.
Qed.

Lemma or_default_truthy (v : JSValue) : Value.truthy (Value.or v (JStr "0")) = true.
Proof. unfold Value.or. now destruct (Value.truthy v) eqn:Hv. Qed.

Section Steps.

Variable toLocaleString : Z -> string.

(** What each route does to the state. *)
Lemma serve_step (r : Route) (host : Host) (req : Request) (st : State) :
  match r with
  | POST_api_data =>
      post_outcome host req st (serve toLocaleString r host req st)
  | GET_api_simple =>
      fst (serve toLocaleString r host req st) =
        unshift (SimpleEntry (Iso (clock host 0))
                   (Value.or (query_param "temp" req) (JStr "0"))
                   (Value.or (query_param "hum" req) (JStr "0")) "GET") st
  | _ => fst (serve toLocaleString r host req st) = st
  end.
Proof.
  destruct r; try reflexivity.
  - apply post_data_outcome.
  - unfold serve. cbn [route_handler].
    unfold get_dashboard, bind, get_state, lift, ret.
    now destruct (render toLocaleString (sensorData st)).
Qed.

Lemma cards_readings (history : list Entry) :
  forallb is_reading (firstn 10 history) = true ->
  exists cs, cards toLocaleString history = Ok cs.
Proof.
  unfold cards. rewrite js_slice_10.
  induction (firstn 10 history) as [| e l IH]; intros H; [now eexists |].
  cbn [forallb] in H. apply andb_true_iff in H as [He Hl].
  destruct (IH Hl) as [cs Hcs].
  destruct e as [id [t] x y received client | ]; [| discriminate].
  cbn [map_result card entry_timestamp entry_temperature entry_humidity
       Value.toString rbind].
  rewrite Hcs. now eexists.
Qed.

End Steps.

(** X10.  A POST that reads its fields leaves the new reading followed by
    the first 99 entries of the previous history, whatever its length was:
    the history has min(length + 1, 100) entries afterwards, which is the
    count the response reports, so a history grown past 100 through GET
    /api/simple is cut back by the next successful POST. *)
Theorem post_stores_and_cuts (host : Host) (req : Request) (st : State)
  (fields : Num.JSNumber * Num.JSNumber) :
  read_fields req = Ok fields ->
  let out := answer (post_data host req st) in
  sensorData (fst out) =
    data_entry host req fields :: firstn 99 (sensorData st) /\
  List.length (sensorData (fst out)) =
    Nat.min (S (List.length (sensorData st))) 100 /\
  snd out =
    PostOk "Data received successfully" (data_entry host req fields)
      (Nat.min (S (List.length (sensorData st))) 100) "Node.js API on Render".
Proof.
  intros Hread out. unfold out.
  rewrite post_data_counts, (ingest_ok _ _ _ _ Hread).
  cbn [answer fst snd count_success set_sensorData count_request sensorData].
  assert (Hlen : List.length (capped (data_entry host req fields) (sensorData st)) =
                 Nat.min (S (List.length (sensorData st))) 100).
  { unfold capped. rewrite length_firstn. cbn [List.length]. lia. }
  rewrite Hlen. repeat split.
Qed.

Lemma post_stores_and_cuts_witness :
  let grown :=
    serve_all Sample.locale
      (repeat (GET_api_simple, Sample.host, Sample.query_request []) 150)
      initial in
  List.length (sensorData grown) = 150%nat /\
  List.length
    (sensorData
       (fst (answer (post_data Sample.host (Sample.form_request "25.5" "60.0")
                       grown)))) = 100%nat.
Proof.
  intros grown.
  assert (Hgrown : List.length (sensorData grown) = 150%nat)
    by (vm_compute; reflexivity).
  split; [exact Hgrown |].
  destruct (post_stores_and_cuts Sample.host (Sample.form_request "25.5" "60.0")
              grown (Num.parseFloat_string "25.5", Num.parseFloat_string "60.0")
              eq_refl) as (_ & Hlen & _).
  rewrite Hlen, Hgrown. reflexivity.
Defined.

(** X11.  One request changes the history at the front and the back only:
    it adds at most one entry at the front, and what follows is a prefix of
    the previous history, in the same order and unaltered; entries are
    lost at the old end only. *)
Theorem history_changes_at_ends (toLocaleString : Z -> string)
  (r : Route) (host : Host) (req : Request) (st : State) :
  exists added kept,
    sensorData (fst (serve toLocaleString r host req st)) =
      (added ++ firstn kept (sensorData st))%list /\
    (List.length added <= 1)%nat /\
    (mutating r = false -> added = [] /\ (List.length (sensorData st) <= kept)%nat).
Proof.
  pose proof (serve_step toLocaleString r host req st) as Hstep.
  destruct r; cbn [mutating];
    try (exists [], (List.length (sensorData st)); rewrite Hstep, firstn_all;
         split; [reflexivity |];
         split; [cbn; lia | intros _; split; [reflexivity | lia]]).
  - inversion Hstep as [fields Hread Hout | e Hread Hout];
      cbn [fst sensorData count_success set_sensorData count_request].
    + exists [data_entry host req fields], 99%nat.
      split; [reflexivity |]. split; [cbn; lia | discriminate].
    + exists [], (List.length (sensorData st)). rewrite firstn_all.
      split; [reflexivity |]. split; [cbn; lia | discriminate].
  - rewrite Hstep. eexists [_], (List.length (sensorData st)).
    rewrite firstn_all.
    split; [reflexivity |]. split; [cbn; lia | discriminate].
Qed.

(** ** The counters *)

(** X12.  Only POST /api/data touches the counters: every other route,
    GET /api/simple included although it stores an entry, leaves
    [totalRequests], [successfulPosts] and [lastRequest] as they were; a
    POST adds exactly one to [totalRequests] and at most one to
    [successfulPosts], so neither counter ever decreases. *)
Theorem counters_step (toLocaleString : Z -> string)
  (r : Route) (host : Host) (req : Request) (st : State) :
  let before := apiStats st in
  let after := apiStats (fst (serve toLocaleString r host req st)) in
  match r with
  | POST_api_data =>
      totalRequests after = N.succ (totalRequests before) /\
      (successfulPosts before <= successfulPosts after
       <= N.succ (successfulPosts before))%N /\
      lastRequest after = Some (Iso (clock host 0))
  | _ => after = before
  end.
Proof.
  intros before after. unfold before, after.
  pose proof (serve_step toLocaleString r host req st) as Hstep.
  destruct r; try (now rewrite Hstep).
  inversion Hstep as [fields Hread Hout | e Hread Hout];
    cbn [fst apiStats count_success set_sensorData count_request
         totalRequests successfulPosts lastRequest];
    repeat split; lia.
Qed.

Section Invariants.

Variable toLocaleString : Z -> string.

Lemma counters_consistent_step (r : Route) (host : Host) (req : Request)
  (st : State) :
  counters_consistent (apiStats st) ->
  counters_consistent (apiStats (fst (serve toLocaleString r host req st))).
Proof.
  intros [Hle Hlast].
  pose proof (serve_step toLocaleString r host req st) as Hstep.
  destruct r; try (rewrite Hstep; now split).
  inversion Hstep as [fields Hread Hout | e Hread Hout];
    cbn [fst apiStats count_success set_sensorData count_request];
    (split; cbn [totalRequests successfulPosts lastRequest];
     [lia | split; [discriminate | lia]]).
Qed.

Lemma entries_filled_step (r : Route) (host : Host) (req : Request)
  (st : State) :
  forallb entry_filled (sensorData st) = true ->
  forallb entry_filled
    (sensorData (fst (serve toLocaleString r host req st))) = true.
Proof.
  intros Hall.
  pose proof (serve_step toLocaleString r host req st) as Hstep.
  destruct r; try (now rewrite Hstep).
  - inversion Hstep as [fields Hread Hout | e Hread Hout];
      cbn [fst sensorData count_success set_sensorData count_request];
      [| exact Hall].
    unfold capped. apply firstn_forallb. cbn [forallb data_entry entry_filled].
    rewrite header_or_filled by reflexivity. exact Hall.
  - rewrite Hstep. cbn [unshift set_sensorData sensorData forallb entry_filled].
    now rewrite !or_default_truthy, Hall.
Qed.

End Invariants.

(** X13.  In every state the service can reach, [successfulPosts] is at
    most [totalRequests], and [lastRequest] is [null] exactly as long as
    [totalRequests] is 0. *)
Theorem reachable_counters (toLocaleString : Z -> string) (st : State) :
  reachable toLocaleString st ->
  (successfulPosts (apiStats st) <= totalRequests (apiStats st))%N /\
  (lastRequest (apiStats st) = None <-> totalRequests (apiStats st) = 0%N).
Proof.
  intros Hreach. change (counters_consistent (apiStats st)).
  induction Hreach as [| r host req st Hreach IH].
  - split; [reflexivity | now split].
  - now apply counters_consistent_step.
Qed.

Lemma reachable_counters_witness :
  let st :=
    serve_all Sample.locale
      [(GET_api_simple, Sample.host, Sample.query_request []);
       (POST_api_data, Sample.host, Sample.json_request JUndefined);
       (POST_api_data, Sample.host, Sample.form_request "25.5" "60.0")]
      initial in
  successfulPosts (apiStats st) = 1%N /\
  totalRequests (apiStats st) = 2%N /\
  (successfulPosts (apiStats st) <= totalRequests (apiStats st))%N.
Proof.
  intros st. split; [reflexivity |]. split; [reflexivity |].
  refine (proj1 (reachable_counters Sample.locale st _)).
  unfold st, serve_all. cbn [fold_left fst snd].
  repeat apply reachable_serve. apply reachable_initial.
Defined.

(** X14.  Every entry of a reachable history is filled in: a reading
    names a client (the user agent, or [Unknown] when the header is missing
    or empty), an entry of GET /api/simple has method [GET] and a
    temperature and a humidity that are not falsy (a missing or empty
    parameter became the string [0]). *)
Theorem reachable_entries_filled (toLocaleString : Z -> string) (st : State) :
  reachable toLocaleString st ->
  forall e, In e (sensorData st) ->
    match e with
    | Reading _ _ _ _ _ client => client <> EmptyString
    | SimpleEntry _ temp hum method =>
        Value.truthy temp = true /\ Value.truthy hum = true /\ method = "GET"
    end.
Proof.
  intros Hreach.
  assert (Hall : forallb entry_filled (sensorData st) = true).
  { induction Hreach as [| r host req st Hreach IH]; [reflexivity |].
    now apply entries_filled_step. }
  intros e He. rewrite forallb_forall in Hall. specialize (Hall e He).
  destruct e as [id ts x y received client | ts temp hum method];
    cbn [entry_filled] in Hall.
  - intros ->. discriminate Hall.
  - apply andb_true_iff in Hall as [Hall Hm].
    apply andb_true_iff in Hall as [Ht Hh].
    apply String.eqb_eq in Hm. now repeat split.
Qed.

Lemma reachable_entries_filled_witness :
  let st :=
    serve_all Sample.locale
      [(GET_api_simple, Sample.host,
        Sample.query_request [("temp", JStr EmptyString)])]
      initial in
  sensorData st =
    [SimpleEntry (Iso (clock Sample.host 0)) (JStr "0") (JStr "0") "GET"] /\
  Value.truthy (JStr "0") = true.
Proof.
  intros st. split; [reflexivity |].
  refine (proj1 (reachable_entries_filled Sample.locale st _
                   (SimpleEntry (Iso (clock Sample.host 0)) (JStr "0") (JStr "0")
                      "GET") _)).
  - unfold st, serve_all. cbn [fold_left fst snd].
    apply reachable_serve, reachable_initial.
  - left. reflexivity.
Defined.

(** ** Runs of requests *)

Lemma post_all_counters_from (rs : list (Host * Request)) : forall st,
  List.length (snd (post_all rs st)) = List.length rs /\
  totalRequests (apiStats (fst (post_all rs st))) =
    (totalRequests (apiStats st) + N.of_nat (List.length rs))%N /\
  successfulPosts (apiStats (fst (post_all rs st))) =
    (successfulPosts (apiStats st)
     + N.of_nat (List.length (inserted (snd (post_all rs st)))))%N.
Proof.
  induction rs as [| [host req] rest IH]; intros st.
  - cbn [post_all fst snd inserted List.length]. repeat split; lia.
  - cbn [post_all].
    pose proof (post_data_outcome host req st) as Hout.
    destruct (answer (post_data host req st)) as [st1 resp].
    specialize (IH st1).
    destruct (post_all rest st1) as [st2 resps].
    cbn [fst snd] in *. destruct IH as (Hn & Htotal & Hsucc).
    rewrite Htotal, Hsucc.
    inversion Hout as [fields Hread Hst | e Hread Hst]; subst st1 resp;
      cbn [inserted List.length apiStats count_success set_sensorData
           count_request totalRequests successfulPosts];
      repeat split; lia.
Qed.

(** X15.  After a run of POST /api/data requests from the initial state,
    every request has its response, [totalRequests] is the number of
    requests, [successfulPosts] is the number of readings the responses
    report as stored, and the history holds min(successfulPosts, 100)
    entries. *)
Theorem post_all_counters (rs : list (Host * Request)) :
  let final := fst (post_all rs initial) in
  let responses := snd (post_all rs initial) in
  List.length responses = List.length rs /\
  totalRequests (apiStats final) = N.of_nat (List.length rs) /\
  successfulPosts (apiStats final) = N.of_nat (List.length (inserted responses)) /\
  List.length (sensorData final) =
    Nat.min (N.to_nat (successfulPosts (apiStats final))) 100.
Proof.
  intros final responses.
  destruct (post_all_counters_from rs initial) as (Hn & Htotal & Hsucc).
  fold final responses in Hn, Htotal, Hsucc.
  cbn [initial apiStats totalRequests successfulPosts] in Htotal, Hsucc.
  repeat split; [exact Hn | lia | lia |].
  assert (Hhist := post_all_history rs initial).
  fold final responses in Hhist.
  rewrite Hhist by (cbn; lia).
  cbn [initial sensorData]. rewrite app_nil_r, length_firstn, length_rev, Hsucc.
  lia.
Qed.

Section WithoutSimple.

Variable toLocaleString : Z -> string.

Lemma capped_readings_step (r : Route) (host : Host) (req : Request)
  (st : State) :
  r <> GET_api_simple ->
  (List.length (sensorData st) <= 100)%nat /\
  forallb is_reading (sensorData st) = true ->
  (List.length (sensorData (fst (serve toLocaleString r host req st))) <= 100)%nat /\
  forallb is_reading
    (sensorData (fst (serve toLocaleString r host req st))) = true.
Proof.
  intros Hr [Hlen Hall].
  pose proof (serve_step toLocaleString r host req st) as Hstep.
  destruct r; try (now rewrite Hstep); try contradiction.
  inversion Hstep as [fields Hread Hout | e Hread Hout];
    cbn [fst sensorData count_success set_sensorData count_request];
    [| now split].
  split; [apply capped_length |].
  unfold capped. apply firstn_forallb. cbn [forallb data_entry is_reading].
  exact Hall.
Qed.

Lemma capped_readings_run (rs : list (Route * Host * Request)) : forall st,
  Forall (fun r => route_of r <> GET_api_simple) rs ->
  (List.length (sensorData st) <= 100)%nat /\
  forallb is_reading (sensorData st) = true ->
  (List.length (sensorData (serve_all toLocaleString rs st)) <= 100)%nat /\
  forallb is_reading (sensorData (serve_all toLocaleString rs st)) = true.
Proof.
  induction rs as [| [[r host] req] rest IH]; intros st Hrs Hst.
  - exact Hst.
  - inversion Hrs as [| x l Hr Hrest]; subst.
    unfold serve_all in *. cbn [fold_left fst snd].
    apply IH; [exact Hrest |].
    now apply capped_readings_step.
Qed.

End WithoutSimple.

(** X16.  As long as GET /api/simple is not among the requests served, the
    history keeps within 100 entries, all of them readings stored by POST
    /api/data, and GET /dashboard answers with a page. *)
Theorem capped_without_simple (toLocaleString : Z -> string)
  (rs : list (Route * Host * Request)) :
  Forall (fun r => route_of r <> GET_api_simple) rs ->
  let st := serve_all toLocaleString rs initial in
  (List.length (sensorData st) <= 100)%nat /\
  (forall e, In e (sensorData st) -> is_reading e = true) /\
  forall host req,
    exists page,
      serve toLocaleString GET_dashboard host req st = (st, Html page).
Proof.
  intros Hrs st.
  destruct (capped_readings_run toLocaleString rs initial Hrs) as [Hlen Hall];
    [split; [cbn; lia | reflexivity] |].
  fold st in Hlen, Hall.
  split; [exact Hlen |]. split.
  - intros e He. rewrite forallb_forall in Hall. now apply Hall.
  - intros host req.
    destruct (cards_readings toLocaleString (sensorData st)) as [cs Hcs];
      [now apply firstn_forallb |].
    unfold serve. cbn [route_handler].
    unfold get_dashboard, bind, get_state, lift, ret, render.
    rewrite Hcs. cbn [rbind answer]. now eexists.
Qed.

Lemma capped_without_simple_witness :
  let rs :=
    (map (fun r => (POST_api_data, fst r, snd r)) (Sample.readings 120)
     ++ [(GET_api_data, Sample.host, Sample.query_request [])])%list in
  (List.length (sensorData (serve_all Sample.locale rs initial)) <= 100)%nat /\
  List.length (sensorData (serve_all Sample.locale rs initial)) = 100%nat.
Proof.
  intros rs. split; [| vm_compute; reflexivity].
  refine (proj1 (capped_without_simple Sample.locale rs _)).
  unfold rs. apply Forall_app. split.
  - apply Forall_map, Forall_forall. intros x _. discriminate.
  - repeat constructor. discriminate.
Defined.

(** ** What the read routes show after a write *)

Section Composition.

Variable toLocaleString : Z -> string.

(** The page after an insertion at the front: the card of the new entry,
    then the first nine of the cards before. *)
Lemma cards_cons (e : Entry) (history : list Entry) (c : string)
  (cs : list string) :
  card toLocaleString e = Ok c ->
  cards toLocaleString history = Ok cs ->
  cards toLocaleString (e :: history) = Ok (c :: firstn 9 cs).
Proof.
  unfold cards. rewrite !js_slice_10. intros He Hcs.
  change (firstn 10 (e :: history)) with (e :: firstn 9 history).
  cbn [map_result]. rewrite He. cbn [rbind].
  replace (firstn 9 history) with (firstn 9 (firstn 10 history))
    by (rewrite firstn_firstn; reflexivity).
  now rewrite (map_result_firstn _ 9 _ _ Hcs).
Qed.

Lemma cards_firstn (n : nat) (history : list Entry) :
  (10 <= n)%nat ->
  cards toLocaleString (firstn n history) = cards toLocaleString history.
Proof.
  intros Hn. unfold cards. rewrite !js_slice_10, firstn_firstn.
  now replace (Nat.min 10 n) with 10%nat by lia.
Qed.

End Composition.

(** X17.  GET /api/data after a POST that read its fields lists the new
    reading first, followed by the first 99 entries of the history before,
    with the count the POST reported and the counters as the POST left
    them. *)
Theorem post_then_listing (toLocaleString : Z -> string)
  (host host' : Host) (req req' : Request) (st : State)
  (fields : Num.JSNumber * Num.JSNumber) :
  read_fields req = Ok fields ->
  let posted := answer (post_data host req st) in
  exists count,
    snd posted =
      PostOk "Data received successfully" (data_entry host req fields) count
        "Node.js API on Render" /\
    snd (serve toLocaleString GET_api_data host' req' (fst posted)) =
      DataListing count
        (data_entry host req fields :: firstn 99 (sensorData st))
        {| totalRequests := N.succ (totalRequests (apiStats st));
           successfulPosts := N.succ (successfulPosts (apiStats st));
           lastRequest := Some (Iso (clock host 0)) |}.
Proof.
  intros Hread posted. unfold posted.
  rewrite post_data_counts, (ingest_ok _ _ _ _ Hread).
  cbn [answer fst snd]. eexists. split; reflexivity.
Qed.

Lemma post_then_listing_witness :
  exists count,
    snd (answer (post_data Sample.host (Sample.form_request "25.5" "60.0") initial))
    = PostOk "Data received successfully"
        (data_entry Sample.host (Sample.form_request "25.5" "60.0")
           (Num.parseFloat_string "25.5", Num.parseFloat_string "60.0"))
        count "Node.js API on Render" /\
    snd (serve Sample.locale GET_api_data Sample.host (Sample.query_request [])
           (fst (answer (post_data Sample.host
                           (Sample.form_request "25.5" "60.0") initial))))
    = DataListing count
        [data_entry Sample.host (Sample.form_request "25.5" "60.0")
           (Num.parseFloat_string "25.5", Num.parseFloat_string "60.0")]
        {| totalRequests := 1; successfulPosts := 1;
           lastRequest := Some (Iso (clock Sample.host 0)) |}.
Proof.
  exact (post_then_listing Sample.locale Sample.host Sample.host
           (Sample.form_request "25.5" "60.0") (Sample.query_request [])
           initial (Num.parseFloat_string "25.5", Num.parseFloat_string "60.0")
           eq_refl).
Defined.

(** X18.  The dashboard after GET /api/simple with non-empty strings for
    [temp] and [hum]: its first card carries the two strings exactly as
    received, with no escaping or conversion, between the fixed pieces of
    the template, and is followed by the first nine cards of the page
    before. *)
Theorem simple_then_dashboard (toLocaleString : Z -> string)
  (host : Host) (req : Request) (st : State) (temp hum : string)
  (cs : list string) :
  query_param "temp" req = JStr temp -> temp <> EmptyString ->
  query_param "hum" req = JStr hum -> hum <> EmptyString ->
  cards toLocaleString (sensorData st) = Ok cs ->
  cards toLocaleString
    (sensorData (fst (serve toLocaleString GET_api_simple host req st))) =
    Ok ((Page.card_open ++ toLocaleString (clock host 0) ++ Page.card_temp
           ++ temp ++ Page.card_hum ++ hum ++ Page.card_close)
        :: firstn 9 cs).
Proof.
  intros Ht Htne Hh Hhne Hcs.
  rewrite get_simple_unshift, Ht, Hh.
  apply cards_cons; [| exact Hcs].
  destruct temp as [| a temp]; [contradiction |].
  destruct hum as [| b hum]; [contradiction |].
  reflexivity.
Qed.

Lemma simple_then_dashboard_witness :
  cards Sample.locale
    (sensorData
       (fst (serve Sample.locale GET_api_simple Sample.host
               (Sample.query_request
                  [("temp", JStr "<b>12</b>"); ("hum", JStr "34")])
               initial))) =
    Ok [Page.card_open ++ Sample.locale (clock Sample.host 0) ++ Page.card_temp
          ++ "<b>12</b>" ++ Page.card_hum ++ "34" ++ Page.card_close].
Proof.
  apply (simple_then_dashboard Sample.locale Sample.host
           (Sample.query_request [("temp", JStr "<b>12</b>"); ("hum", JStr "34")])
           initial "<b>12</b>" "34" []);
    try reflexivity; discriminate.
Defined.

(** X19.  The dashboard after a POST that read its fields: its first card
    shows the two numbers as Number::toString prints them (so a stored NaN
    is shown as [NaN]), and is followed by the first nine cards of the page
    before. *)
Theorem post_then_dashboard (toLocaleString : Z -> string)
  (host : Host) (req : Request) (st : State)
  (temperature humidity : Num.JSNumber) (cs : list string) :
  read_fields req = Ok (temperature, humidity) ->
  cards toLocaleString (sensorData st) = Ok cs ->
  cards toLocaleString (sensorData (fst (answer (post_data host req st)))) =
    Ok ((Page.card_open ++ toLocaleString (clock host 2) ++ Page.card_temp
           ++ Num.toString temperature ++ Page.card_hum
           ++ Num.toString humidity ++ Page.card_close)
        :: firstn 9 cs).
Proof.
  intros Hread Hcs.
  rewrite post_data_counts, (ingest_ok _ _ _ _ Hread).
  cbn [answer fst count_success set_sensorData sensorData].
  unfold capped. rewrite cards_firstn by lia.
  now apply cards_cons.
Qed.

Lemma post_then_dashboard_witness :
  cards Sample.locale
    (sensorData
       (fst (answer (post_data Sample.host
                       (Sample.text_request "temp=..&hum=60.50") initial)))) =
    Ok [Page.card_open ++ Sample.locale (clock Sample.host 2) ++ Page.card_temp
          ++ "NaN" ++ Page.card_hum ++ "60.5" ++ Page.card_close].
Proof.
  exact (post_then_dashboard Sample.locale Sample.host
           (Sample.text_request "temp=..&hum=60.50") initial
           Num.NaN (Num.parseFloat_string "60.50") [] eq_refl eq_refl).
Defined.

(** ** Decimal texts in the form and JSON branches *)

Lemma append_empty_r (s : string) : s ++ EmptyString = s.
Proof. induction s as [| c s IH]; cbn; [reflexivity | now rewrite IH]. Qed.

Lemma span_all (f : ascii -> bool) (a : string) :
  all_chars f a = true -> Str.span f a = (a, EmptyString).
Proof.
  induction a as [| c a IH]; cbn; [reflexivity |].
  intros H. apply andb_true_iff in H as [Hc Ha].
  now rewrite Hc, (IH Ha).
Qed.

Lemma span_app (f : ascii -> bool) (a b : string) :
  all_chars f a = true -> starts_with_char f b = false ->
  Str.span f (a ++ b) = (a, b).
Proof.
  intros Ha Hb. induction a as [| c a IH]; cbn in *.
  - destruct b as [| c b]; [reflexivity |]. cbn in *. now rewrite Hb.
  - apply andb_true_iff in Ha as [Hc Ha]. now rewrite Hc, (IH Ha).
Qed.

Lemma shr_1_nonneg (mrs : shr_record) :
  0 <= shr_m mrs -> 0 <= shr_m (shr_1 mrs).
Proof.
  destruct mrs as [m r s]. destruct m as [| [p | p |] | [p | p |]]; cbn; lia.
Qed.

Lemma iter_shr_1_nonneg (p : positive) : forall mrs,
  0 <= shr_m mrs -> 0 <= shr_m (iter_pos shr_1 p mrs).
Proof.
  induction p as [p IH | p IH |]; intros mrs H; cbn [iter_pos].
  - apply IH, IH, shr_1_nonneg, H.
  - apply IH, IH, H.
  - apply shr_1_nonneg, H.
Qed.

Lemma shr_fexp_nonneg (m e : Z) (l : location) :
  0 <= m -> 0 <= shr_m (fst (shr_fexp Num.prec Num.emax m e l)).
Proof.
  intros Hm. unfold shr_fexp, shr.
  assert (H0 : 0 <= shr_m (shr_record_of_loc m l))
    by (destruct l as [| []]; exact Hm).
  destruct (fexp _ _ _ - e) as [| p | p]; cbn [fst]; try exact H0.
  now apply iter_shr_1_nonneg.
Qed.

Lemma binary_round_aux_not_nan (m e : Z) (l : location) :
  0 <= m ->
  Num.is_nan (binary_round_aux Num.prec Num.emax false m e l) = false.
Proof.
  intros Hm. unfold binary_round_aux.
  pose proof (shr_fexp_nonneg m e l Hm) as H1.
  destruct (shr_fexp _ _ m e l) as [mrs e1]. cbn [fst] in H1.
  assert (H2 : 0 <= round_nearest_even (shr_m mrs) (loc_of_shr_record mrs)).
  { unfold round_nearest_even.
    destruct (loc_of_shr_record mrs) as [| []]; try lia.
    destruct (Z.even (shr_m mrs)); lia. }
  pose proof (shr_fexp_nonneg _ e1 loc_Exact H2) as H3.
  destruct (shr_fexp _ _ _ e1 loc_Exact) as [mrs' e2]. cbn [fst] in H3.
  destruct (shr_m mrs') as [| q | q]; [reflexivity | | lia].
  now destruct (e2 <=? Num.emax - Num.prec).
Qed.

Lemma of_decimal_not_nan (m : N) (e : Z) :
  Num.is_nan (Num.of_decimal false m e) = false.
Proof.
  unfold Num.of_decimal. destruct m as [| p]; [reflexivity |].
  destruct (Z.leb_spec 0 e) as [He | He].
  - cbn [cond_Zopp].
    assert (Hpos : 0 < Z.pos p * 10 ^ e) by (apply Z.mul_pos_pos; lia).
    destruct (Z.pos p * 10 ^ e) as [| q | q]; try lia.
    cbn [binary_normalize]. unfold binary_round.
    destruct (shl_align _ _ _) as [mz ez].
    apply binary_round_aux_not_nan. lia.
  - cbn [SFdiv]. unfold SFdiv_core_binary.
    set (m' := match _ - _ - _ with Z.pos _ => _ | 0 => _ | Z.neg _ => _ end).
    assert (Hm' : 0 <= m').
    { unfold m'. destruct (_ - _ - _); try lia. apply Z.shiftl_nonneg. lia. }
    pose proof (Z.div_pos m' (Z.pos (Z.to_pos (10 ^ (- e)))) Hm' ltac:(lia)) as Hq.
    unfold Z.div in Hq.
    destruct (Z.div_eucl m' _) as [q r].
    now apply binary_round_aux_not_nan.
Qed.

Lemma number_or_zero_of_decimal (m : N) (e : Z) :
  number_or_zero (Num.of_decimal false m e) = Num.of_decimal false m e.
Proof.
  pose proof (of_decimal_not_nan m e) as Hnan.
  pose proof (of_decimal_sign m e) as Hsign.
  unfold number_or_zero.
  destruct (Num.of_decimal false m e) as [s | s | | s q z]; cbn in *;
    try reflexivity; try discriminate.
  now subst s.
Qed.

(** [parseFloat] on the text of a decimal: the Number nearest to it. *)
Lemma parseFloat_decimal_text (ip fp : string) :
  ip <> EmptyString ->
  all_chars Str.is_digit ip = true -> all_chars Str.is_digit fp = true ->
  Num.parseFloat_string (decimal_text ip fp) =
    Num.of_decimal false (Num.digits_value (ip ++ fp))
      (- Z.of_nat (String.length fp)).
Proof.
  intros Hne Hip Hfp.
  destruct ip as [| c ip]; [contradiction |].
  cbn [all_chars] in Hip. apply andb_true_iff in Hip as [Hc Hip].
  assert (Hcd : Str.is_digit_or_dot c = true)
    by (unfold Str.is_digit_or_dot; now rewrite Hc).
  assert (Hinf : forall rest, prefix "Infinity" (String c rest) = false).
  { intros rest. cbn [prefix].
    destruct (ascii_dec "I" c) as [<- | Hdiff]; [discriminate Hc | reflexivity]. }
  assert (Hall : all_chars Str.is_digit (String c ip) = true)
    by (cbn [all_chars]; now rewrite Hc, Hip).
  unfold decimal_text. destruct fp as [| d fp].
  - rewrite (parseFloat_unsigned c ip Hcd).
    unfold Num.unsigned_literal. rewrite Hinf, (span_all _ _ Hall).
    cbn [Str.is_empty andb Num.exponent_part String.length].
    now rewrite append_empty_r.
  - change (String c ip ++ "." ++ String d fp)
      with (String c (ip ++ String "." (String d fp))).
    rewrite (parseFloat_unsigned c _ Hcd).
    unfold Num.unsigned_literal. rewrite Hinf.
    change (String c (ip ++ String "." (String d fp)))
      with (String c ip ++ String "." (String d fp)).
    rewrite (span_app _ _ _ Hall) by reflexivity.
    rewrite (span_all _ _ Hfp).
    cbn [Str.is_empty andb Num.exponent_part].
    now rewrite Z.sub_0_l.
Qed.

(** X20.  A form or JSON request (the content type containing the type in
    lower case) whose [temp] and [hum] are the texts of two decimals, digits
    with an optional fraction as in [temp=25.5&hum=60], is accepted, and the
    reading stored at the front of the history holds the two Numbers nearest
    to these decimals. *)
Theorem decimal_fields_stored (host : Host) (req : Request) (st : State)
  (props : list (string * JSValue)) (ip fp iq fq : string) :
  typed req = true ->
  body req = JObj props ->
  Value.own "temp" props = Some (JStr (decimal_text ip fp)) ->
  Value.own "hum" props = Some (JStr (decimal_text iq fq)) ->
  ip <> EmptyString -> all_chars Str.is_digit ip = true ->
  all_chars Str.is_digit fp = true ->
  iq <> EmptyString -> all_chars Str.is_digit iq = true ->
  all_chars Str.is_digit fq = true ->
  let stored :=
    Reading (clock host 1) (Iso (clock host 2))
      (Num.of_decimal false (Num.digits_value (ip ++ fp))
         (- Z.of_nat (String.length fp)))
      (Num.of_decimal false (Num.digits_value (iq ++ fq))
         (- Z.of_nat (String.length fq)))
      (Locale (clock host 3)) (header_or "user-agent" "Unknown" req) in
  let out := answer (post_data host req st) in
  hd_error (sensorData (fst out)) = Some stored /\
  snd out =
    PostOk "Data received successfully" stored
      (List.length (sensorData (fst out))) "Node.js API on Render".
Proof.
  intros Htyped Hbody Htemp Hhum Hip1 Hip2 Hfp Hiq1 Hiq2 Hfq stored out.
  assert (Hread : read_fields req =
            Ok (Num.of_decimal false (Num.digits_value (ip ++ fp))
                  (- Z.of_nat (String.length fp)),
                Num.of_decimal false (Num.digits_value (iq ++ fq))
                  (- Z.of_nat (String.length fq)))).
  { rewrite (read_fields_typed req Htyped), Hbody.
    cbn [Value.get rbind]. rewrite Htemp, Hhum.
    cbn [Value.parseFloat Value.toString rbind].
    rewrite (parseFloat_decimal_text ip fp Hip1 Hip2 Hfp).
    rewrite (parseFloat_decimal_text iq fq Hiq1 Hiq2 Hfq).
    now rewrite !number_or_zero_of_decimal. }
  unfold out. rewrite post_data_counts, (ingest_ok _ _ _ _ Hread).
  split; reflexivity.
Qed.

Lemma decimal_fields_stored_witness :
  hd_error
    (sensorData
       (fst (answer (post_data Sample.host (Sample.form_request "25.5" "60")
                       initial)))) =
    Some (Reading (clock Sample.host 1) (Iso (clock Sample.host 2))
            (S754_finite false 7177611906121728 (-48))
            (S754_finite false 8444249301319680 (-47))
            (Locale (clock Sample.host 3)) "ArduinoGSM").
Proof.
  exact (proj1 (decimal_fields_stored Sample.host
                  (Sample.form_request "25.5" "60") initial
                  [("temp", JStr "25.5"); ("hum", JStr "60")]
                  "25" "5" "60" EmptyString
                  eq_refl eq_refl eq_refl eq_refl
                  ltac:(discriminate) eq_refl eq_refl
                  ltac:(discriminate) eq_refl eq_refl)).
Defined.

(** ** The page of the dashboard *)

Lemma concat_empty_join (l : list string) :
  Str.join_empty l = String.concat EmptyString l.
Proof.
  induction l as [| x l IH]; [reflexivity |].
  cbn [Str.join_empty fold_right]. fold (Str.join_empty l). rewrite IH.
  destruct l as [| y l]; [apply append_empty_r | reflexivity].
Qed.

Section PlainCards.

Variable toLocaleString : Z -> string.

Lemma toString_plain (v : JSValue) :
  plain_value v = true -> Value.toString v = Ok (plain_text v).
Proof. destruct v; try discriminate; reflexivity. Qed.

Lemma card_plain (e : Entry) :
  plain_entry e = true ->
  card toLocaleString e = Ok (card_text toLocaleString e).
Proof.
  unfold plain_entry, card, card_text. intros H.
  apply andb_true_iff in H as [Ht Hh].
  destruct (entry_timestamp e) as [t].
  now rewrite (toString_plain _ Ht), (toString_plain _ Hh).
Qed.

Lemma map_card_plain (l : list Entry) :
  forallb plain_entry l = true ->
  map_result (card toLocaleString) l = Ok (map (card_text toLocaleString) l).
Proof.
  induction l as [| e l IH]; [reflexivity |].
  cbn [forallb map_result map]. intros H.
  apply andb_true_iff in H as [He Hl].
  now rewrite (card_plain e He), (IH Hl).
Qed.

End PlainCards.

(** X21.  When the first ten entries of the history hold numbers or
    strings (every reading does, and every entry of GET /api/simple whose
    parameters were strings), GET /dashboard answers the page made of the
    fixed text of the template, the number of all entries, and one card
    for each of the first ten entries and no other, in the order of the
    history, each with the entry's date, temperature and humidity; the state
    is left as it was. *)
Theorem dashboard_page (toLocaleString : Z -> string)
  (host : Host) (req : Request) (st : State) :
  forallb plain_entry (firstn 10 (sensorData st)) = true ->
  serve toLocaleString GET_dashboard host req st =
    (st,
     Html (Page.head ++ Str.of_nat (List.length (sensorData st)) ++ Page.middle
             ++ String.concat EmptyString
                  (map (card_text toLocaleString) (firstn 10 (sensorData st)))
             ++ Page.tail)).
Proof.
  intros Hplain. unfold serve. cbn [route_handler].
  unfold get_dashboard, bind, get_state, lift, ret.
  rewrite render_cards, (map_card_plain toLocaleString _ Hplain).
  cbn [rbind answer]. now rewrite concat_empty_join.
Qed.

Lemma dashboard_page_witness :
  let st :=
    serve_all Sample.locale
      [(POST_api_data, Sample.host, Sample.form_request "25.5" "60");
       (GET_api_simple, Sample.host,
        Sample.query_request [("temp", JStr "12"); ("hum", JStr "34")])]
      initial in
  serve Sample.locale GET_dashboard Sample.host (Sample.query_request []) st =
    (st,
     Html (Page.head ++ "2" ++ Page.middle
             ++ (Page.card_open ++ "t1700000000000" ++ Page.card_temp ++ "12"
                   ++ Page.card_hum ++ "34" ++ Page.card_close)
             ++ (Page.card_open ++ "t1700000000002" ++ Page.card_temp ++ "25.5"
                   ++ Page.card_hum ++ "60" ++ Page.card_close)
             ++ Page.tail)).
Proof.
  intros st.
  rewrite (dashboard_page Sample.locale Sample.host (Sample.query_request [])
             st eq_refl).
  vm_compute. reflexivity.
Defined.
